(** * Lightning Meal Plans: the email-verification and password-reset pages

    A shallow embedding of the two page scripts of the site
    ([src/unnamed/part_000], the email verification page, and
    [src/js/reset-password.js], the password reset page) and the properties
    of their specification that were checked against them.

    Modelling conventions.
    - A JavaScript string is a Rocq [string]; its [length] is the number of
      code units, so the model covers the strings whose code units are
      below 256.  A value that may be [null] or [undefined] is an [option].
    - The query string [window.location.search] is kept as the entry list
      that [URLSearchParams] builds from it; [get] returns the first value
      of a name, or [null].
    - A [classList] is a finite set of tokens ([gset string]).
    - The identity provider is opaque: the calls the scripts make are
      recorded in a log, the synchronous outcome of [initializeApp] and
      [auth] is an oracle held by the page, and the settlement of a promise
      arrives as an event of its own.
    - An [async] function is cut at its [await]: the part that runs
      synchronously, and the continuations that run when the promise is
      settled.
    - What the provider throws or rejects with is an error object, a value
      with a [code] and a [message], as its interface gives; a rejection
      with [null] or [undefined], on which reading [error.code] throws in
      its turn, is not modelled. The verification page has the six
      elements its script looks up; on the reset page the banner and the
      form, which the script tests for, may be missing. *)

From Stdlib Require Import String Ascii List Bool Arith Lia.
From stdpp Require Import base strings gmap sets list.
Import ListNotations.

(** ** What the two scripts share: values, the provider, a small monad *)

Module JS.

(** [if (v)] on a value that is a string, [null] or [undefined]. *)
Definition truthy (v : option string) : bool :=
  match v with
  | Some s => negb (s =? "")%string
  | None => false
  end.

(** [v === lit] for a string literal [lit]. *)
Definition strict_eq (v : option string) (lit : string) : bool :=
  match v with
  | Some s => (s =? lit)%string
  | None => false
  end.

(** [${v}] in a template literal. *)
Definition template (v : option string) : string :=
  match v with
  | Some s => s
  | None => "undefined"
  end.

(** [v || fallback]. *)
Definition or_else (v : option string) (fallback : string) : string :=
  if truthy v then template v else fallback.

(** [URLSearchParams.prototype.get]. *)
Fixpoint get (name : string) (entries : list (string * string)) : option string :=
  match entries with
  | [] => None
  | (k, v) :: rest => if (k =? name)%string then Some v else get name rest
  end.

(** The object a promise is rejected with, or that a call throws. *)
Record JsError := mkError { code : option string; message : option string }.

Inductive Settle :=
| Resolves
| Rejects (error : JsError).

Record Config := mkConfig {
  cfg_apiKey : option string;
  authDomain : string;
  projectId : string
}.

(** The global [firebase]: what its two synchronous entry points do.
    [Some e] means the call throws [e]; [auth_throws] is told whether an
    app has been initialised on this page. *)
Record Sdk := mkSdk {
  initializeApp_throws : Config -> option JsError;
  auth_throws : bool -> option JsError
}.

(** [DOMTokenList.add], [remove] and [contains]. *)
Definition add (token : string) (tokens : gset string) : gset string :=
  tokens ∪ {[ token ]}.
Definition remove (token : string) (tokens : gset string) : gset string :=
  tokens ∖ {[ token ]}.
Definition contains (token : string) (tokens : gset string) : bool :=
  bool_decide (token ∈ tokens).

#[global] Arguments add : simpl never.
#[global] Arguments remove : simpl never.
#[global] Arguments contains : simpl never.

(** [String.prototype.trim], on code units below 256: the white space and
    line terminators of ECMAScript in that range are TAB, LF, VT, FF, CR,
    SP and NBSP. *)
Definition is_white_space (c : ascii) : bool :=
  let n := nat_of_ascii c in
  ((9 <=? n) && (n <=? 13)) || (n =? 32) || (n =? 160).

Fixpoint trimStart (s : string) : string :=
  match s with
  | EmptyString => EmptyString
  | String c rest => if is_white_space c then trimStart rest else s
  end.

Fixpoint trimEnd (s : string) : string :=
  match s with
  | EmptyString => EmptyString
  | String c rest =>
      match trimEnd rest with
      | EmptyString => if is_white_space c then EmptyString else String c EmptyString
      | kept => String c kept
      end
  end.

Definition trim (s : string) : string := trimEnd (trimStart s).

(** Code that changes a state [St] and may throw. *)
Definition Js (St A : Type) : Type := St -> (A + JsError) * St.

Definition ret {St A} (a : A) : Js St A := fun s => (inl a, s).

Definition bind {St A B} (c : Js St A) (k : A -> Js St B) : Js St B :=
  fun s =>
    match c s with
    | (inl a, s') => k a s'
    | (inr e, s') => (inr e, s')
    end.

Definition throw {St A} (e : JsError) : Js St A := fun s => (inr e, s).

(** [try { body } catch (error) { handler error }]. *)
Definition try_catch {St A} (body : Js St A) (handler : JsError -> Js St A) : Js St A :=
  fun s =>
    match body s with
    | (inl a, s') => (inl a, s')
    | (inr e, s') => handler e s'
    end.

Definition gets {St A} (f : St -> A) : Js St A := fun s => (inl (f s), s).
Definition modify {St} (f : St -> St) : Js St unit := fun s => (inl tt, f s).

(** Reading a property of [null]. *)
Definition TypeError (what : string) : JsError :=
  mkError None (Some ("Cannot read properties of null (reading '" +:+ what +:+ "')")).

(** [firebase] used where it is not defined. *)
Definition ReferenceError : JsError :=
  mkError None (Some "firebase is not defined").

Definition deref {St A} (what : string) (v : option A) : Js St A :=
  match v with
  | Some a => ret a
  | None => throw (TypeError what)
  end.

End JS.

Import JS.

Notation "x <- c ;; k" := (bind c (fun x => k))
  (at level 20, c at level 99, k at level 200, only parsing).
Notation "c ;;; k" := (bind c (fun _ => k))
  (at level 100, k at level 200, only parsing, right associativity).

(** ** The email verification page ([src/unnamed/part_000]) *)

Module Verify.

Record Element := mkElement {
  classList : gset string;
  textContent : string;
  style_display : string
}.

(** The six elements the script looks up by id. *)
Record Document := mkDocument {
  loading : Element;
  success : Element;
  error : Element;
  error_message : Element;
  error_code : Element;
  error_details : Element
}.

Inductive Effect :=
| LocationSearchRead
| InitializeApp (config : Config)
| AuthCall
| ApplyActionCode (oobCode : option string)
| ConsoleError (label : string) (error : JsError)
| SetLocationHref (url : string)
| SetTimeout (delay : nat)
| Alert (text : string)
| Uncaught (error : JsError).

Record Page := mkPage {
  doc : Document;
  search : list (string * string);
  firebase : option Sdk;
  app_initialized : bool;
  (** [initializeEmailVerification] is suspended at its [await]. *)
  awaiting_applyActionCode : bool;
  (** The callbacks handed to [setTimeout], as the text they alert. *)
  timers : list string;
  log : list Effect
}.

Definition with_doc (f : Document -> Document) (p : Page) : Page :=
  mkPage (f (doc p)) (search p) (firebase p) (app_initialized p)
         (awaiting_applyActionCode p) (timers p) (log p).

Definition emit (e : Effect) (p : Page) : Page :=
  mkPage (doc p) (search p) (firebase p) (app_initialized p)
         (awaiting_applyActionCode p) (timers p) (log p ++ [e]).

Definition set_app_initialized (b : bool) (p : Page) : Page :=
  mkPage (doc p) (search p) (firebase p) b
         (awaiting_applyActionCode p) (timers p) (log p).

Definition set_awaiting (b : bool) (p : Page) : Page :=
  mkPage (doc p) (search p) (firebase p) (app_initialized p) b (timers p) (log p).

Definition set_timers (ts : list string) (p : Page) : Page :=
  mkPage (doc p) (search p) (firebase p) (app_initialized p)
         (awaiting_applyActionCode p) ts (log p).

Definition classes (f : gset string -> gset string) (e : Element) : Element :=
  mkElement (f (classList e)) (textContent e) (style_display e).
Definition set_textContent (s : string) (e : Element) : Element :=
  mkElement (classList e) s (style_display e).
Definition set_display (s : string) (e : Element) : Element :=
  mkElement (classList e) (textContent e) s.

Definition on_loading (f : Element -> Element) (d : Document) : Document :=
  mkDocument (f (loading d)) (success d) (error d)
             (error_message d) (error_code d) (error_details d).
Definition on_success (f : Element -> Element) (d : Document) : Document :=
  mkDocument (loading d) (f (success d)) (error d)
             (error_message d) (error_code d) (error_details d).
Definition on_error (f : Element -> Element) (d : Document) : Document :=
  mkDocument (loading d) (success d) (f (error d))
             (error_message d) (error_code d) (error_details d).
Definition on_error_message (f : Element -> Element) (d : Document) : Document :=
  mkDocument (loading d) (success d) (error d)
             (f (error_message d)) (error_code d) (error_details d).
Definition on_error_code (f : Element -> Element) (d : Document) : Document :=
  mkDocument (loading d) (success d) (error d)
             (error_message d) (f (error_code d)) (error_details d).
Definition on_error_details (f : Element -> Element) (d : Document) : Document :=
  mkDocument (loading d) (success d) (error d)
             (error_message d) (error_code d) (f (error_details d)).

Record UrlParameters := mkParams {
  oobCode : option string;
  apiKey : option string;
  mode : option string
}.

Definition getUrlParameters : Js Page UrlParameters :=
  modify (emit LocationSearchRead) ;;;
  urlParams <- gets search ;;
  ret (mkParams (get "oobCode" urlParams) (get "apiKey" urlParams) (get "mode" urlParams)).

Definition showLoading (d : Document) : Document :=
  let d := on_loading (classes (add "active")) d in
  let d := on_success (classes (remove "active")) d in
  on_error (classes (remove "active")) d.

Definition showSuccess (d : Document) : Document :=
  let d := on_loading (classes (remove "active")) d in
  let d := on_success (classes (add "active")) d in
  on_error (classes (remove "active")) d.

Definition showError (message : string) (errorCode : option string) (d : Document) : Document :=
  let d := on_loading (classes (remove "active")) d in
  let d := on_success (classes (remove "active")) d in
  let d := on_error (classes (add "active")) d in
  let d := on_error_message (set_textContent message) d in
  if truthy errorCode then
    let d := on_error_code (set_textContent ("Error Code: " +:+ template errorCode)) d in
    on_error_details (set_display "block") d
  else d.

Definition verification_message (errorCode : option string) : string :=
  let errorMessage := "Verification failed. " in
  if strict_eq errorCode "auth/expired-action-code" then
    errorMessage +:+ "This link has expired. Please request a new verification email from the app."
  else if strict_eq errorCode "auth/invalid-action-code" then
    errorMessage +:+ "This link is invalid or has already been used."
  else if strict_eq errorCode "auth/user-disabled" then
    errorMessage +:+ "This account has been disabled. Please contact support."
  else if strict_eq errorCode "auth/user-not-found" then
    errorMessage +:+ "User account not found."
  else
    errorMessage +:+ "Please try again or request a new verification email from the app.".

Definition handleVerificationError (error : JsError) (d : Document) : Document :=
  showError (verification_message (code error)) (code error) d.

(** The [catch] block of [initializeEmailVerification]. *)
Definition initializeEmailVerification_catch (error : JsError) : Js Page unit :=
  modify (emit (ConsoleError "Verification error:" error)) ;;;
  modify (with_doc (handleVerificationError error)).

(** [firebase.initializeApp(config)]; the script runs only when
    [firebase] is defined. *)
Definition firebase_initializeApp (config : Config) : Js Page unit :=
  modify (emit (InitializeApp config)) ;;;
  sdk <- gets firebase ;;
  match sdk with
  | None => throw ReferenceError
  | Some f =>
      match initializeApp_throws f config with
      | Some e => throw e
      | None => modify (set_app_initialized true)
      end
  end.

(** [firebase.auth()]. *)
Definition firebase_auth : Js Page unit :=
  modify (emit AuthCall) ;;;
  sdk <- gets firebase ;;
  initialized <- gets app_initialized ;;
  match sdk with
  | None => throw ReferenceError
  | Some f =>
      match auth_throws f initialized with
      | Some e => throw e
      | None => ret tt
      end
  end.

(** [initializeEmailVerification] up to its [await]. *)
Definition initializeEmailVerification : Js Page unit :=
  params <- getUrlParameters ;;
  if negb (truthy (oobCode params)) then
    modify (with_doc (showError "Invalid verification link. Missing verification code." None))
  else if negb (truthy (apiKey params)) then
    modify (with_doc (showError "Invalid verification link. Missing API key." None))
  else if negb (strict_eq (mode params) "verifyEmail") then
    modify (with_doc (showError
      "Invalid verification link. This link is not for email verification." None))
  else
    let firebaseConfig :=
      mkConfig (apiKey params) "ai-meals-9daf1.firebaseapp.com" "ai-meals-9daf1" in
    try_catch
      (firebase_initializeApp firebaseConfig ;;;
       firebase_auth ;;;
       modify (emit (ApplyActionCode (oobCode params))) ;;;
       modify (set_awaiting true))
      initializeEmailVerification_catch.

(** [initializeEmailVerification] from its [await] on. *)
Definition initializeEmailVerification_resume (outcome : Settle) : Js Page unit :=
  modify (set_awaiting false) ;;;
  match outcome with
  | Resolves => modify (with_doc showSuccess)
  | Rejects error => initializeEmailVerification_catch error
  end.

Definition returnToApp : Js Page unit :=
  modify (emit (SetLocationHref "lightningmealplans://verify-email-complete")) ;;;
  modify (emit (SetTimeout 1000)) ;;;
  modify (fun p => set_timers (timers p ++
    ["If the app did not open automatically, please return to the Lightning Meal Plans app and sign in."]) p).

(** The [DOMContentLoaded] listener. *)
Definition onDOMContentLoaded : Js Page unit :=
  sdk <- gets firebase ;;
  match sdk with
  | None =>
      modify (with_doc (showError
        "Failed to load Firebase SDK. Please refresh the page and try again." None))
  | Some _ => initializeEmailVerification
  end.

(** What the browser can deliver to the page. [ReturnToAppCalled] is a
    call of the global function [returnToApp] from outside the script. *)
Inductive Event :=
| DOMContentLoaded
| ApplyActionCodeSettled (outcome : Settle)
| ReturnToAppCalled
| TimerFired.

(** Run a piece of script to its end; what it throws is not caught. *)
Definition run (c : Js Page unit) (p : Page) : Page :=
  match c p with
  | (inl _, p') => p'
  | (inr e, p') => emit (Uncaught e) p'
  end.

Definition step (ev : Event) (p : Page) : Page :=
  match ev with
  | DOMContentLoaded => run onDOMContentLoaded p
  | ApplyActionCodeSettled outcome =>
      if awaiting_applyActionCode p
      then run (initializeEmailVerification_resume outcome) p
      else p
  | ReturnToAppCalled => run returnToApp p
  | TimerFired =>
      match timers p with
      | [] => p
      | text :: rest => emit (Alert text) (set_timers rest p)
      end
  end.

Definition steps (evs : list Event) (p : Page) : Page :=
  fold_left (fun q ev => step ev q) evs p.

(** The panels that carry the [active] flag. *)
Definition active (e : Element) : bool := contains "active" (classList e).

Definition active_panels (d : Document) : nat :=
  (if active (loading d) then 1 else 0) +
  (if active (success d) then 1 else 0) +
  (if active (error d) then 1 else 0).

Definition provider_call (e : Effect) : bool :=
  match e with
  | InitializeApp _ | AuthCall | ApplyActionCode _ => true
  | _ => false
  end.

(** How many entries of a log satisfy [f]. *)
Definition count (f : Effect -> bool) (l : list Effect) : nat :=
  length (List.filter f l).

Definition is_uncaught (e : Effect) : bool :=
  match e with Uncaught _ => true | _ => false end.
Definition is_alert (e : Effect) : bool :=
  match e with Alert _ => true | _ => false end.
Definition is_setTimeout (e : Effect) : bool :=
  match e with SetTimeout _ => true | _ => false end.

(** What the deep-link return leaves in the log. *)
Definition deep_link_effect (e : Effect) : bool :=
  match e with
  | SetLocationHref _ | SetTimeout _ => true
  | _ => false
  end.

(** The [case] labels of [handleVerificationError]. *)
Definition recognized_codes : list string :=
  [ "auth/expired-action-code"; "auth/invalid-action-code";
    "auth/user-disabled"; "auth/user-not-found" ].

Definition recognized (errorCode : option string) : bool :=
  existsb (strict_eq errorCode) recognized_codes.

(** How many times the script has read [window.location.search]. *)
Definition location_reads (l : list Effect) : nat :=
  length (List.filter (fun e => match e with LocationSearchRead => true | _ => false end) l).

(** A page to run examples on: the loading panel shown, the error details
    hidden, nothing run yet. The markup is not part of the sources; the
    theorems hold for every document. *)
Definition blank : Element := mkElement ∅ "" "".
Definition initial_document : Document :=
  mkDocument (mkElement {[ "active" ]} "" "") blank blank blank blank (mkElement ∅ "" "none").

Definition working_sdk : Sdk := mkSdk (fun _ => None) (fun _ => None).

Definition fresh (query : list (string * string)) (sdk : option Sdk) : Page :=
  mkPage initial_document query sdk false false [] [].

End Verify.

(** ** The password reset page ([src/js/reset-password.js]) *)

Module Reset.

(** The status banner [#status-message]. *)
Record Banner := mkBanner {
  classList : gset string;
  textContent : string
}.

Inductive Tag := Input | Button | Select | Textarea.

(** A control of the form [#reset-password-form]. *)
Record Control := mkControl {
  tag : Tag;
  id : string;
  type_attr : string;
  value : string;
  defaultValue : string;
  disabled : bool;
  label : string
}.

Inductive Effect :=
| LocationSearchRead
| InitializeApp (config : Config)
| AuthCall
| VerifyPasswordResetCode (oobCode : option string)
| ConfirmPasswordReset (oobCode : option string) (newPassword : string)
| ConsoleLog (text : string)
| ConsoleError (text : string) (error : JsError)
| PreventDefault
| ScrollIntoView
| Uncaught (error : JsError).

Record Page := mkPage {
  status : option Banner;
  form : option (list Control);
  search : list (string * string);
  firebase : option Sdk;
  app_initialized : bool;
  (** [handleFormSubmit] listens to the form's [submit]. *)
  submit_listener : bool;
  (** [initializePasswordReset] is suspended at its [await]. *)
  awaiting_verifyPasswordResetCode : bool;
  (** The [confirmPasswordReset] promises not settled yet, each with what
      its callbacks captured: the submit button (its place among the
      controls) and [originalButtonText]. *)
  in_flight : list (nat * string);
  log : list Effect
}.

Definition set_status (b : option Banner) (p : Page) : Page :=
  mkPage b (form p) (search p) (firebase p) (app_initialized p) (submit_listener p)
         (awaiting_verifyPasswordResetCode p) (in_flight p) (log p).
Definition set_form (f : option (list Control)) (p : Page) : Page :=
  mkPage (status p) f (search p) (firebase p) (app_initialized p) (submit_listener p)
         (awaiting_verifyPasswordResetCode p) (in_flight p) (log p).
Definition set_app_initialized (b : bool) (p : Page) : Page :=
  mkPage (status p) (form p) (search p) (firebase p) b (submit_listener p)
         (awaiting_verifyPasswordResetCode p) (in_flight p) (log p).
Definition set_submit_listener (b : bool) (p : Page) : Page :=
  mkPage (status p) (form p) (search p) (firebase p) (app_initialized p) b
         (awaiting_verifyPasswordResetCode p) (in_flight p) (log p).
Definition set_awaiting (b : bool) (p : Page) : Page :=
  mkPage (status p) (form p) (search p) (firebase p) (app_initialized p) (submit_listener p)
         b (in_flight p) (log p).
Definition set_in_flight (l : list (nat * string)) (p : Page) : Page :=
  mkPage (status p) (form p) (search p) (firebase p) (app_initialized p) (submit_listener p)
         (awaiting_verifyPasswordResetCode p) l (log p).
Definition emit (e : Effect) (p : Page) : Page :=
  mkPage (status p) (form p) (search p) (firebase p) (app_initialized p) (submit_listener p)
         (awaiting_verifyPasswordResetCode p) (in_flight p) (log p ++ [e]).

Definition set_value (s : string) (c : Control) : Control :=
  mkControl (tag c) (id c) (type_attr c) s (defaultValue c) (disabled c) (label c).
Definition set_disabled (b : bool) (c : Control) : Control :=
  mkControl (tag c) (id c) (type_attr c) (value c) (defaultValue c) b (label c).
Definition set_label (s : string) (c : Control) : Control :=
  mkControl (tag c) (id c) (type_attr c) (value c) (defaultValue c) (disabled c) s.

(** Change the control at place [i] of the form. *)
Definition on_control (i : nat) (f : Control -> Control) (p : Page) : Page :=
  set_form (alter f i <$> form p) p.

Record UrlParameters := mkParams {
  oobCode : option string;
  apiKey : option string;
  mode : option string
}.

Definition getUrlParameters : Js Page UrlParameters :=
  modify (emit LocationSearchRead) ;;;
  urlParams <- gets search ;;
  ret (mkParams (get "oobCode" urlParams) (get "apiKey" urlParams) (get "mode" urlParams)).

Record ValidationResult := mkValidation {
  isValid : bool;
  errors : list string
}.

Definition validatePasswords (newPassword confirmPassword : string) : ValidationResult :=
  let errors : list string := [] in
  let errors :=
    if (newPassword =? "")%string || (trim newPassword =? "")%string
    then errors ++ ["Password cannot be empty."] else errors in
  let errors :=
    if (confirmPassword =? "")%string || (trim confirmPassword =? "")%string
    then errors ++ ["Please confirm your password."] else errors in
  let errors :=
    if negb (newPassword =? "")%string && (String.length newPassword <? 8)
    then errors ++ ["Password must be at least 8 characters long."] else errors in
  let errors :=
    if negb (newPassword =? "")%string && negb (confirmPassword =? "")%string
       && negb (newPassword =? confirmPassword)%string
    then errors ++ ["Passwords do not match. Please try again."] else errors in
  mkValidation (length errors =? 0) errors.

Definition displayMessage (message : string) (isError : bool) : Js Page unit :=
  statusContainer <- gets status ;;
  match statusContainer with
  | None => ret tt
  | Some _ =>
      let className : gset string :=
        if isError then {[ "alert"; "alert-error" ]} else {[ "alert"; "alert-success" ]} in
      modify (set_status (Some (mkBanner (remove "hidden" className) message))) ;;;
      modify (emit ScrollIntoView)
  end.

Definition hideMessage : Js Page unit :=
  statusContainer <- gets status ;;
  match statusContainer with
  | Some b => modify (set_status (Some (mkBanner (add "hidden" (classList b)) (textContent b))))
  | None => ret tt
  end.

Definition getFirebaseErrorMessage (error : JsError) : string :=
  let errorCode := code error in
  if strict_eq errorCode "auth/expired-action-code" then
    "This password reset link has expired. Please request a new one."
  else if strict_eq errorCode "auth/invalid-action-code" then
    "This password reset link is invalid or has already been used. Please request a new one."
  else if strict_eq errorCode "auth/user-disabled" then
    "This account has been disabled. Please contact support."
  else if strict_eq errorCode "auth/user-not-found" then
    "No account found with this email. Please check and try again."
  else if strict_eq errorCode "auth/weak-password" then
    "Password is too weak. Please choose a stronger password."
  else if strict_eq errorCode "auth/network-request-failed" then
    "Unable to connect. Please check your internet connection and try again."
  else
    or_else (message error) "An error occurred. Please try again.".

Definition firebase_initializeApp (config : Config) : Js Page unit :=
  modify (emit (InitializeApp config)) ;;;
  sdk <- gets firebase ;;
  match sdk with
  | None => throw ReferenceError
  | Some f =>
      match initializeApp_throws f config with
      | Some e => throw e
      | None => modify (set_app_initialized true)
      end
  end.

Definition firebase_auth : Js Page unit :=
  modify (emit AuthCall) ;;;
  sdk <- gets firebase ;;
  initialized <- gets app_initialized ;;
  match sdk with
  | None => throw ReferenceError
  | Some f =>
      match auth_throws f initialized with
      | Some e => throw e
      | None => ret tt
      end
  end.

(** [form.querySelectorAll('input, button')]. *)
Definition input_or_button (c : Control) : bool :=
  match tag c with
  | Input | Button => true
  | Select | Textarea => false
  end.

(** The [catch] block of [initializePasswordReset]. *)
Definition initializePasswordReset_catch (error : JsError) : Js Page unit :=
  modify (emit (ConsoleError "Error verifying password reset code:" error)) ;;;
  displayMessage (getFirebaseErrorMessage error) true ;;;
  form <- gets form ;;
  match form with
  | Some controls =>
      modify (set_form (Some
        ((fun input => if input_or_button input then set_disabled true input else input)
           <$> controls)))
  | None => ret tt
  end.

(** [initializePasswordReset] up to its [await]. *)
Definition initializePasswordReset : Js Page unit :=
  params <- getUrlParameters ;;
  if negb (truthy (oobCode params)) then
    displayMessage "Invalid password reset link. Missing verification code." true
  else if negb (truthy (apiKey params)) then
    displayMessage "Invalid password reset link. Missing API key." true
  else if negb (strict_eq (mode params) "resetPassword") then
    displayMessage "Invalid password reset link. Incorrect mode." true
  else
    let firebaseConfig :=
      mkConfig (apiKey params) "ai-meals-9daf1.firebaseapp.com" "ai-meals-9daf1" in
    try_catch
      (firebase_initializeApp firebaseConfig ;;;
       firebase_auth ;;;
       modify (emit (VerifyPasswordResetCode (oobCode params))) ;;;
       modify (set_awaiting true))
      initializePasswordReset_catch.

(** [initializePasswordReset] from its [await] on. *)
Definition initializePasswordReset_resume (outcome : Settle) : Js Page unit :=
  modify (set_awaiting false) ;;;
  match outcome with
  | Resolves => modify (emit (ConsoleLog "Password reset code verified successfully"))
  | Rejects error => initializePasswordReset_catch error
  end.

(** [document.getElementById], for the ids of the form's controls. *)
Definition getElementById (name : string) : Js Page (option Control) :=
  form <- gets form ;;
  ret (controls ← form; snd <$> list_find (fun c => id c = name) controls).

(** [button[type="submit"]]. *)
Definition submit_button (c : Control) : bool :=
  match tag c with
  | Button => (type_attr c =? "submit")%string
  | _ => false
  end.

(** [event.target.querySelector('button[type="submit"]')]: the place and
    the state of the first such button of the form. *)
Definition querySelector_submit : Js Page (option (nat * Control)) :=
  form <- gets form ;;
  controls <- deref "querySelector" form ;;
  ret (list_find (fun c => submit_button c = true) controls).

(** [handleFormSubmit] up to the call of [confirmPasswordReset]. *)
Definition handleFormSubmit : Js Page unit :=
  modify (emit PreventDefault) ;;;
  hideMessage ;;;
  newPasswordInput <- getElementById "new-password" ;;
  newPasswordInput <- deref "value" newPasswordInput ;;
  let newPassword := value newPasswordInput in
  confirmPasswordInput <- getElementById "confirm-password" ;;
  confirmPasswordInput <- deref "value" confirmPasswordInput ;;
  let confirmPassword := value confirmPasswordInput in
  params <- getUrlParameters ;;
  let validation := validatePasswords newPassword confirmPassword in
  if negb (isValid validation) then
    displayMessage (String.concat " " (errors validation)) true
  else
    submitButton <- querySelector_submit ;;
    submitButton <- deref "textContent" submitButton ;;
    let originalButtonText := label (snd submitButton) in
    modify (on_control (fst submitButton) (set_disabled true)) ;;;
    modify (on_control (fst submitButton) (set_label "Resetting...")) ;;;
    firebase_auth ;;;
    modify (emit (ConfirmPasswordReset (oobCode params) newPassword)) ;;;
    modify (fun p => set_in_flight (in_flight p ++ [(fst submitButton, originalButtonText)]) p).

(** [HTMLFormElement.reset]: the fields go back to their default values. *)
Definition reset (controls : list Control) : list Control :=
  (fun c => match tag c with
            | Button => c
            | _ => set_value (defaultValue c) c
            end) <$> controls.

(** The callback given to [then]. *)
Definition confirmPasswordReset_then (submitButton : nat) : Js Page unit :=
  displayMessage "Password reset successful! You can now sign in with your new password." false ;;;
  form <- gets form ;;
  controls <- deref "reset" form ;;
  modify (set_form (Some (reset controls))) ;;;
  modify (on_control submitButton (set_label "Password Reset Complete")).

(** The callback given to [catch]. *)
Definition confirmPasswordReset_catch (submitButton : nat) (originalButtonText : string)
    (error : JsError) : Js Page unit :=
  modify (emit (ConsoleError "Error resetting password:" error)) ;;;
  displayMessage (getFirebaseErrorMessage error) true ;;;
  modify (on_control submitButton (set_disabled false)) ;;;
  modify (on_control submitButton (set_label originalButtonText)).

(** [promise.then(...).catch(...)] once the promise is settled: what the
    first callback throws reaches the second. *)
Definition confirmPasswordReset_settled (captured : nat * string) (outcome : Settle)
    : Js Page unit :=
  match outcome with
  | Resolves =>
      try_catch (confirmPasswordReset_then (fst captured))
                (confirmPasswordReset_catch (fst captured) (snd captured))
  | Rejects error => confirmPasswordReset_catch (fst captured) (snd captured) error
  end.

(** The [DOMContentLoaded] listener. The call of the [async] function
    returns a promise: nothing it throws reaches the listener. *)
Definition onDOMContentLoaded : Js Page unit :=
  sdk <- gets firebase ;;
  match sdk with
  | None =>
      displayMessage "Failed to load Firebase SDK. Please refresh the page and try again." true
  | Some _ =>
      try_catch initializePasswordReset (fun e => modify (emit (Uncaught e))) ;;;
      form <- gets form ;;
      match form with
      | Some _ => modify (set_submit_listener true)
      | None => ret tt
      end
  end.

(** What the browser can deliver to the page. *)
Inductive Event :=
| DOMContentLoaded
| VerifyPasswordResetCodeSettled (outcome : Settle)
| Typed (name : string) (text : string)
| Submit
| ConfirmPasswordResetSettled (n : nat) (outcome : Settle).

Definition run (c : Js Page unit) (p : Page) : Page :=
  match c p with
  | (inl _, p') => p'
  | (inr e, p') => emit (Uncaught e) p'
  end.

(** The user types into a field: a disabled field takes no input. *)
Definition type_into (name text : string) (controls : list Control) : list Control :=
  match list_find (fun c => id c = name) controls with
  | Some (i, c) => if disabled c then controls else alter (set_value text) i controls
  | None => controls
  end.

(** The user can submit the form through a submit control that is not
    disabled. *)
Definition can_submit (p : Page) : bool :=
  match form p with
  | Some controls =>
      existsb (fun c => input_or_button c && (type_attr c =? "submit")%string
                        && negb (disabled c)) controls
  | None => false
  end.

Definition step (ev : Event) (p : Page) : Page :=
  match ev with
  | DOMContentLoaded => run onDOMContentLoaded p
  | VerifyPasswordResetCodeSettled outcome =>
      if awaiting_verifyPasswordResetCode p
      then run (initializePasswordReset_resume outcome) p
      else p
  | Typed name text => set_form (type_into name text <$> form p) p
  | Submit =>
      if submit_listener p && can_submit p then run handleFormSubmit p else p
  | ConfirmPasswordResetSettled n outcome =>
      match in_flight p !! n with
      | Some captured =>
          run (confirmPasswordReset_settled captured outcome)
              (set_in_flight (delete n (in_flight p)) p)
      | None => p
      end
  end.

Definition steps (evs : list Event) (p : Page) : Page :=
  fold_left (fun q ev => step ev q) evs p.

Definition provider_call (e : Effect) : bool :=
  match e with
  | InitializeApp _ | AuthCall | VerifyPasswordResetCode _ | ConfirmPasswordReset _ _ => true
  | _ => false
  end.

(** How many entries of a log satisfy [f]. *)
Definition count (f : Effect -> bool) (l : list Effect) : nat :=
  length (List.filter f l).

Definition is_uncaught (e : Effect) : bool :=
  match e with Uncaught _ => true | _ => false end.

(** The [case] labels of [getFirebaseErrorMessage]. *)
Definition recognized_codes : list string :=
  [ "auth/expired-action-code"; "auth/invalid-action-code";
    "auth/user-disabled"; "auth/user-not-found";
    "auth/weak-password"; "auth/network-request-failed" ].

Definition recognized (errorCode : option string) : bool :=
  existsb (strict_eq errorCode) recognized_codes.

(** How many times the script has read [window.location.search]. *)
Definition location_reads (l : list Effect) : nat :=
  length (List.filter (fun e => match e with LocationSearchRead => true | _ => false end) l).

(** The value of a field of the form. *)
Definition field_value (name : string) (p : Page) : option string :=
  controls ← form p;
  value <$> (snd <$> list_find (fun c => id c = name) controls).

(** The text the banner shows, when it is there and not hidden. *)
Definition displayed (p : Page) : option string :=
  b ← status p;
  if contains "hidden" (classList b) then None else Some (textContent b).

(** A control that [querySelectorAll('input, button')] selects is
    disabled. *)
Definition locked (c : Control) : bool := implb (input_or_button c) (disabled c).

(** Every [input] and [button] of the form is disabled. *)
Definition all_disabled (p : Page) : bool :=
  match form p with
  | Some controls => forallb locked controls
  | None => true
  end.

(** A page to run examples on: two password fields and the submit button
    in the form, the banner hidden. The markup is not part of the sources;
    the theorems hold for every page. *)
Definition initial_form : list Control :=
  [ mkControl Input "new-password" "password" "" "" false "";
    mkControl Input "confirm-password" "password" "" "" false "";
    mkControl Button "submit-button" "submit" "" "" false "Reset Password" ].

Definition working_sdk : Sdk := mkSdk (fun _ => None) (fun _ => None).

Definition fresh (query : list (string * string)) (sdk : option Sdk) : Page :=
  mkPage (Some (mkBanner {[ "hidden" ]} "")) (Some initial_form) query sdk
         false false false [] [].

End Reset.

(** * Properties *)

(** ** Class lists *)

Section ClassList.

Variables (token : string) (tokens : gset string).

Lemma contains_add : contains token (add token tokens) = true.
Proof.
  unfold contains, add. apply bool_decide_eq_true.
  rewrite elem_of_union, elem_of_singleton. tauto.
Qed.

Lemma contains_remove : contains token (remove token tokens) = false.
Proof.
  unfold contains, remove. apply bool_decide_eq_false.
  rewrite elem_of_difference, elem_of_singleton. tauto.
Qed.

Lemma add_add : add token (add token tokens) = add token tokens.
Proof. unfold add. rewrite <- (assoc_L (∪)), union_idemp_L. reflexivity. Qed.

Lemma remove_remove : remove token (remove token tokens) = remove token tokens.
Proof.
  unfold remove. apply set_eq. intros x. rewrite !elem_of_difference. tauto.
Qed.

End ClassList.

Create Rewrite HintDb classlist.
#[local] Hint Rewrite contains_add contains_remove add_add remove_remove : classlist.

(** ** The presentation controller of the verification page *)

Ltac verify_document :=
  cbv [Verify.on_loading Verify.on_success Verify.on_error Verify.on_error_message
       Verify.on_error_code Verify.on_error_details Verify.classes
       Verify.set_textContent Verify.set_display
       Verify.loading Verify.success Verify.error Verify.error_message
       Verify.error_code Verify.error_details
       Verify.classList Verify.textContent Verify.style_display].

Section Panels.

Import Verify.

Variable d : Document.

Lemma showLoading_panels :
  active (loading (showLoading d)) = true /\
  active (success (showLoading d)) = false /\
  active (error (showLoading d)) = false.
Proof.
  destruct d. unfold active, showLoading. verify_document.
  autorewrite with classlist. auto.
Qed.

Lemma showSuccess_panels :
  active (loading (showSuccess d)) = false /\
  active (success (showSuccess d)) = true /\
  active (error (showSuccess d)) = false.
Proof.
  destruct d. unfold active, showSuccess. verify_document.
  autorewrite with classlist. auto.
Qed.

Lemma showError_panels message errorCode :
  active (loading (showError message errorCode d)) = false /\
  active (success (showError message errorCode d)) = false /\
  active (error (showError message errorCode d)) = true.
Proof.
  destruct d. unfold active, showError. destruct (truthy errorCode);
    verify_document; autorewrite with classlist; auto.
Qed.

Lemma showLoading_idempotent : showLoading (showLoading d) = showLoading d.
Proof.
  destruct d. unfold showLoading. verify_document.
  autorewrite with classlist. reflexivity.
Qed.

Lemma showSuccess_idempotent : showSuccess (showSuccess d) = showSuccess d.
Proof.
  destruct d. unfold showSuccess. verify_document.
  autorewrite with classlist. reflexivity.
Qed.

Lemma showError_idempotent message errorCode :
  showError message errorCode (showError message errorCode d)
  = showError message errorCode d.
Proof.
  destruct d. unfold showError. destruct (truthy errorCode);
    verify_document; autorewrite with classlist; reflexivity.
Qed.

End Panels.

(** C8. Whatever panels carried the [active] flag before, each of
    [showLoading], [showSuccess] and [showError] leaves exactly one panel
    with it, and doing the same operation again changes nothing. *)
Theorem C8_show_state_exactly_one_active_and_idempotent :
  forall (d : Verify.Document) (message : string) (errorCode : option string),
    Verify.active_panels (Verify.showLoading d) = 1 /\
    Verify.active_panels (Verify.showSuccess d) = 1 /\
    Verify.active_panels (Verify.showError message errorCode d) = 1 /\
    Verify.showLoading (Verify.showLoading d) = Verify.showLoading d /\
    Verify.showSuccess (Verify.showSuccess d) = Verify.showSuccess d /\
    Verify.showError message errorCode (Verify.showError message errorCode d)
      = Verify.showError message errorCode d.
Proof.
  intros d message errorCode.
  destruct (showLoading_panels d) as (l1 & l2 & l3).
  destruct (showSuccess_panels d) as (s1 & s2 & s3).
  destruct (showError_panels d message errorCode) as (e1 & e2 & e3).
  unfold Verify.active_panels.
  rewrite l1, l2, l3, s1, s2, s3, e1, e2, e3.
  repeat split; auto using showLoading_idempotent, showSuccess_idempotent,
    showError_idempotent.
Qed.

(** ** Error display on the verification page *)

Section VerifyErrors.

Import Verify.

Variables (d : Document) (message : string).

Lemma showError_message errorCode :
  textContent (error_message (showError message errorCode d)) = message.
Proof.
  destruct d. unfold showError. destruct (truthy errorCode); reflexivity.
Qed.

Lemma showError_falsy_code errorCode :
  truthy errorCode = false ->
  error_code (showError message errorCode d) = error_code d /\
  error_details (showError message errorCode d) = error_details d.
Proof. intros H. destruct d. unfold showError. rewrite H. split; reflexivity. Qed.

Lemma showError_truthy_code errorCode :
  truthy errorCode = true ->
  textContent (error_code (showError message errorCode d))
    = "Error Code: " +:+ template errorCode /\
  style_display (error_details (showError message errorCode d)) = "block".
Proof. intros H. destruct d. unfold showError. rewrite H. split; reflexivity. Qed.

End VerifyErrors.

(** C10. [showError] writes the error-code text and reveals the
    error-details element only when it is given an error code; called
    without one it leaves both as they were, so the code shown by an
    earlier call stays on the page beside the new message. *)
Theorem C10_showError_keeps_code_when_none_given :
  forall (d : Verify.Document) (m1 m2 c : string),
    c <> "" ->
    (* without a code: both elements untouched *)
    Verify.error_code (Verify.showError m2 None d) = Verify.error_code d /\
    Verify.error_details (Verify.showError m2 None d) = Verify.error_details d /\
    (* with a code: text written, details revealed *)
    Verify.textContent (Verify.error_code (Verify.showError m1 (Some c) d))
      = "Error Code: " +:+ c /\
    Verify.style_display (Verify.error_details (Verify.showError m1 (Some c) d)) = "block" /\
    (* a call without a code after a call with one *)
    let d' := Verify.showError m2 None (Verify.showError m1 (Some c) d) in
    Verify.textContent (Verify.error_message d') = m2 /\
    Verify.textContent (Verify.error_code d') = "Error Code: " +:+ c /\
    Verify.style_display (Verify.error_details d') = "block".
Proof.
  intros d m1 m2 c Hc.
  assert (Ht : truthy (Some c) = true).
  { cbn. apply negb_true_iff, String.eqb_neq, Hc. }
  destruct (showError_falsy_code d m2 None eq_refl) as [n1 n2].
  destruct (showError_truthy_code d m1 (Some c) Ht) as [t1 t2].
  destruct (showError_falsy_code (Verify.showError m1 (Some c) d) m2 None eq_refl)
    as [k1 k2].
  cbv zeta. rewrite showError_message, k1, k2.
  repeat split; assumption.
Qed.

Lemma C10_witness :
  "auth/expired-action-code" <> "" /\
  let d' := Verify.showError "Invalid verification link. Missing API key." None
              (Verify.showError "Verification failed. This link has expired."
                 (Some "auth/expired-action-code") Verify.initial_document) in
  Verify.textContent (Verify.error_code d') = "Error Code: auth/expired-action-code".
Proof.
  split; [discriminate|].
  exact (proj1 (proj2 (proj2 (proj2 (proj2 (proj2
    (C10_showError_keeps_code_when_none_given Verify.initial_document
       "Verification failed. This link has expired."
       "Invalid verification link. Missing API key."
       "auth/expired-action-code" ltac:(discriminate)))))))).
Defined.

Section VerifyMapping.

Import Verify.

Lemma unrecognized_verification_message errorCode :
  recognized errorCode = false ->
  verification_message errorCode
  = "Verification failed. Please try again or request a new verification email from the app.".
Proof.
  unfold recognized, recognized_codes; cbn [existsb]. intros H.
  repeat (apply orb_false_elim in H; destruct H as [?E H]).
  unfold verification_message. rewrite E, E0, E1, E2. reflexivity.
Qed.

Lemma handleVerificationError_displays error d :
  textContent (error_message (handleVerificationError error d))
  = verification_message (code error).
Proof. apply showError_message. Qed.

End VerifyMapping.

(** ** Error display on the reset page *)

Section ResetMapping.

Import Reset.

Lemma unrecognized_reset_message error :
  recognized (code error) = false ->
  getFirebaseErrorMessage error
  = or_else (message error) "An error occurred. Please try again.".
Proof.
  unfold recognized, recognized_codes; cbn [existsb]. intros H.
  repeat (apply orb_false_elim in H; destruct H as [?E H]).
  unfold getFirebaseErrorMessage. rewrite E, E0, E1, E2, E3, E4. reflexivity.
Qed.

(** [displayMessage] on a page that has the banner. *)
Lemma displayMessage_displayed text isError p :
  status p <> None ->
  displayed (snd (displayMessage text isError p)) = Some text.
Proof.
  intros Hs. unfold displayMessage, bind, gets, modify; cbn.
  destruct (status p) as [b|]; [|contradiction]. cbn.
  unfold displayed; cbn. rewrite contains_remove. reflexivity.
Qed.

End ResetMapping.

(** C3 as the specification states it fails on the reset page: a rejection
    with a code the script does not know and a message of its own is shown
    with that message, not with the fixed fallback. *)
Lemma C3_counterexample :
  let error := mkError (Some "auth/too-many-requests")
                       (Some "Too many attempts. Try again later.") in
  Reset.recognized (code error) = false /\
  Reset.getFirebaseErrorMessage error = "Too many attempts. Try again later." /\
  Reset.getFirebaseErrorMessage error <> "An error occurred. Please try again." /\
  Reset.displayed
    (Reset.steps [Reset.DOMContentLoaded; Reset.VerifyPasswordResetCodeSettled (Rejects error)]
       (Reset.fresh [("mode", "resetPassword"); ("oobCode", "c0de"); ("apiKey", "k3y")]
                    (Some Reset.working_sdk)))
  = Some "Too many attempts. Try again later.".
Proof.
  cbv zeta. split; [vm_compute; reflexivity|].
  split; [vm_compute; reflexivity|].
  split; [vm_compute; discriminate|].
  vm_compute; reflexivity.
Qed.

(** C3, amended. For a rejection whose code is none of the recognized ones,
    the verification page shows its fixed fallback whatever the rejection's
    message is; the reset page shows the rejection's own message when that
    is a non-empty string, and its fixed fallback only when the message is
    missing or empty. *)
Theorem C3_unrecognized_code_fallback :
  forall (errorCode msg : option string),
    (Verify.recognized errorCode = false ->
     forall d : Verify.Document,
       Verify.textContent
         (Verify.error_message (Verify.handleVerificationError (mkError errorCode msg) d))
       = "Verification failed. Please try again or request a new verification email from the app.")
    /\
    (Reset.recognized errorCode = false ->
     Reset.getFirebaseErrorMessage (mkError errorCode msg)
     = match msg with
       | Some text => if (text =? "")%string
                      then "An error occurred. Please try again."
                      else text
       | None => "An error occurred. Please try again."
       end).
Proof.
  intros errorCode msg. split.
  - intros H d. rewrite handleVerificationError_displays.
    apply unrecognized_verification_message, H.
  - intros H. rewrite unrecognized_reset_message by exact H.
    unfold or_else; cbn. destruct msg as [text|]; cbn; [|reflexivity].
    destruct (text =? "")%string; reflexivity.
Qed.

Lemma C3_witness :
  Verify.textContent
    (Verify.error_message
       (Verify.handleVerificationError
          (mkError (Some "auth/too-many-requests") (Some "Too many attempts. Try again later."))
          Verify.initial_document))
  = "Verification failed. Please try again or request a new verification email from the app."
  /\
  Reset.getFirebaseErrorMessage (mkError (Some "auth/too-many-requests") None)
  = "An error occurred. Please try again.".
Proof.
  split.
  - exact (proj1 (C3_unrecognized_code_fallback (Some "auth/too-many-requests")
                    (Some "Too many attempts. Try again later."))
                 eq_refl Verify.initial_document).
  - exact (proj2 (C3_unrecognized_code_fallback (Some "auth/too-many-requests") None)
                 eq_refl).
Defined.

(** C5. Each recognized provider error code is shown with its own fixed
    text: four codes on the verification page, each after the prefix
    "Verification failed. ", and six on the reset page, whatever message the
    rejection carries. *)
Theorem C5_recognized_codes_exact_messages :
  (forall (msg : option string) (d : Verify.Document),
     let shown c := Verify.textContent (Verify.error_message
                      (Verify.handleVerificationError (mkError (Some c) msg) d)) in
     shown "auth/expired-action-code"
       = "Verification failed. " +:+
         "This link has expired. Please request a new verification email from the app." /\
     shown "auth/invalid-action-code"
       = "Verification failed. " +:+ "This link is invalid or has already been used." /\
     shown "auth/user-disabled"
       = "Verification failed. " +:+
         "This account has been disabled. Please contact support." /\
     shown "auth/user-not-found"
       = "Verification failed. " +:+ "User account not found.")
  /\
  (forall (msg : option string) (p : Reset.Page) (b : Reset.Banner),
     let shown c := Reset.displayed (snd (Reset.displayMessage
                      (Reset.getFirebaseErrorMessage (mkError (Some c) msg)) true
                      (Reset.set_status (Some b) p))) in
     shown "auth/expired-action-code"
       = Some "This password reset link has expired. Please request a new one." /\
     shown "auth/invalid-action-code"
       = Some "This password reset link is invalid or has already been used. Please request a new one." /\
     shown "auth/user-disabled"
       = Some "This account has been disabled. Please contact support." /\
     shown "auth/user-not-found"
       = Some "No account found with this email. Please check and try again." /\
     shown "auth/weak-password"
       = Some "Password is too weak. Please choose a stronger password." /\
     shown "auth/network-request-failed"
       = Some "Unable to connect. Please check your internet connection and try again.").
Proof.
  split.
  - intros msg d shown. subst shown; cbv beta.
    rewrite !handleVerificationError_displays. repeat split; reflexivity.
  - intros msg p b shown. subst shown; cbv beta.
    rewrite !displayMessage_displayed by discriminate.
    repeat split; reflexivity.
Qed.

(** ** The verification page, event by event *)

Ltac verify_script :=
  cbv [Verify.run Verify.step Verify.onDOMContentLoaded
       Verify.initializeEmailVerification Verify.initializeEmailVerification_resume
       Verify.initializeEmailVerification_catch Verify.getUrlParameters
       Verify.returnToApp Verify.firebase_initializeApp Verify.firebase_auth
       JS.bind JS.gets JS.modify JS.ret JS.try_catch JS.throw
       Verify.with_doc Verify.emit Verify.set_app_initialized Verify.set_awaiting
       Verify.set_timers
       Verify.doc Verify.search Verify.firebase Verify.app_initialized
       Verify.awaiting_applyActionCode Verify.timers Verify.log
       Verify.oobCode Verify.apiKey Verify.mode fst snd].

(** Follow every path of a script: split on the innermost value that a
    [match] or an [if] of the goal examines, and reduce with [tac]. *)
Ltac split_paths tac :=
  repeat match goal with
         | |- context [match ?x with _ => _ end] =>
             lazymatch x with
             | context [match _ with _ => _ end] => fail
             | _ => destruct x eqn:?; tac
             end
         end.

Section VerifyPage.

Import Verify.

(** The three guards of [initializeEmailVerification] return before the
    [try] block is entered. *)
Lemma initializeEmailVerification_missing_code p :
  truthy (get "oobCode" (search p)) = false ->
  run initializeEmailVerification p
  = with_doc (showError "Invalid verification link. Missing verification code." None)
             (emit LocationSearchRead p).
Proof.
  destruct p; cbn [search]; intros H. verify_script. rewrite H. reflexivity.
Qed.

Lemma initializeEmailVerification_missing_key p :
  truthy (get "oobCode" (search p)) = true ->
  truthy (get "apiKey" (search p)) = false ->
  run initializeEmailVerification p
  = with_doc (showError "Invalid verification link. Missing API key." None)
             (emit LocationSearchRead p).
Proof.
  destruct p; cbn [search]; intros H1 H2. verify_script. rewrite H1, H2. reflexivity.
Qed.

Lemma initializeEmailVerification_wrong_mode p :
  truthy (get "oobCode" (search p)) = true ->
  truthy (get "apiKey" (search p)) = true ->
  strict_eq (get "mode" (search p)) "verifyEmail" = false ->
  run initializeEmailVerification p
  = with_doc (showError
      "Invalid verification link. This link is not for email verification." None)
      (emit LocationSearchRead p).
Proof.
  destruct p; cbn [search]; intros H1 H2 H3. verify_script.
  rewrite H1, H2, H3. reflexivity.
Qed.

Lemma onDOMContentLoaded_with_sdk p sdk :
  firebase p = Some sdk ->
  step DOMContentLoaded p = run initializeEmailVerification p.
Proof.
  destruct p; cbn [firebase]; intros H. subst.
  cbv [step run onDOMContentLoaded JS.bind JS.gets firebase]. reflexivity.
Qed.

(** What a page shows after one of the guards has fired. *)
Lemma guard_fired p text :
  let p' := with_doc (showError text None) (emit LocationSearchRead p) in
  textContent (error_message (doc p')) = text /\
  active (error (doc p')) = true /\
  log p' = log p ++ [LocationSearchRead] /\
  awaiting_applyActionCode p' = awaiting_applyActionCode p.
Proof.
  destruct p as [d ? ? ? ? ? ?]. cbv zeta. verify_script.
  rewrite showError_message.
  destruct (showError_panels d text None) as (_ & _ & He). auto.
Qed.

Lemma applyActionCode_resolved p :
  awaiting_applyActionCode p = true ->
  let p' := step (ApplyActionCodeSettled Resolves) p in
  doc p' = showSuccess (doc p) /\ log p' = log p /\ timers p' = timers p.
Proof.
  destruct p; cbn [awaiting_applyActionCode]; intros H. subst.
  cbv zeta. verify_script. auto.
Qed.

Lemma returnToApp_effects p :
  let p' := step ReturnToAppCalled p in
  log p'
  = log p ++ [SetLocationHref "lightningmealplans://verify-email-complete"; SetTimeout 1000]
  /\ timers p'
  = timers p ++ ["If the app did not open automatically, please return to the Lightning Meal Plans app and sign in."]
  /\ doc p' = doc p.
Proof. destruct p. cbv zeta. verify_script. rewrite <- app_assoc. auto. Qed.

(** Nothing but a call of [returnToApp] navigates or sets a timer. *)
Lemma only_returnToApp_returns ev p :
  ev <> ReturnToAppCalled ->
  List.filter deep_link_effect (log (step ev p)) = List.filter deep_link_effect (log p) /\
  length (timers (step ev p)) <= length (timers p).
Proof.
  destruct p as [d sr fb ai aw ts lg]. intros Hev.
  destruct ev as [|[|e]| |]; try contradiction; verify_script;
    split_paths verify_script; rewrite ?List.filter_app; cbn [List.filter deep_link_effect];
    rewrite ?app_nil_r; cbn [length]; auto with arith.
Qed.

Lemma timer_fired p text rest :
  timers p = text :: rest ->
  log (step TimerFired p) = log p ++ [Alert text].
Proof.
  destruct p; cbn [timers]; intros H. subst. verify_script. reflexivity.
Qed.

End VerifyPage.

(** C1 as the specification states it fails: with a well-formed link and a
    provider call that resolves, the Success panel is shown, and the script
    has neither navigated to the application nor scheduled the alert; a
    timer tick afterwards alerts nothing. *)
Lemma C1_counterexample :
  let p := Verify.steps [Verify.DOMContentLoaded; Verify.ApplyActionCodeSettled Resolves]
             (Verify.fresh [("mode", "verifyEmail"); ("oobCode", "c0de"); ("apiKey", "k3y")]
                           (Some Verify.working_sdk)) in
  Verify.active (Verify.success (Verify.doc p)) = true /\
  Verify.log p
  = [ Verify.LocationSearchRead;
      Verify.InitializeApp
        (mkConfig (Some "k3y") "ai-meals-9daf1.firebaseapp.com" "ai-meals-9daf1");
      Verify.AuthCall;
      Verify.ApplyActionCode (Some "c0de") ] /\
  ~ In (Verify.SetLocationHref "lightningmealplans://verify-email-complete") (Verify.log p) /\
  Verify.timers p = [] /\
  Verify.step Verify.TimerFired p = p.
Proof.
  cbv zeta. split; [vm_compute; reflexivity|].
  split; [vm_compute; reflexivity|].
  split.
  - vm_compute. intros H. repeat (destruct H as [H|H]; [discriminate H|]). exact H.
  - split; vm_compute; reflexivity.
Qed.

(** C1, amended. When the provider's [applyActionCode] call resolves, the
    script shows the Success panel and does nothing more: no navigation, no
    timer. The deep-link return, navigation to the custom-scheme URL and
    then the alert scheduled 1000 ms later, is what [returnToApp] does when
    it is called, and the script never calls it. *)
Theorem C1_success_shows_panel_without_deep_link :
  forall p : Verify.Page,
    Verify.awaiting_applyActionCode p = true ->
    let p' := Verify.step (Verify.ApplyActionCodeSettled Resolves) p in
    Verify.doc p' = Verify.showSuccess (Verify.doc p) /\
    Verify.active (Verify.success (Verify.doc p')) = true /\
    Verify.active_panels (Verify.doc p') = 1 /\
    Verify.log p' = Verify.log p /\
    Verify.timers p' = Verify.timers p /\
    let q := Verify.step Verify.ReturnToAppCalled p' in
    Verify.log q
    = Verify.log p ++ [Verify.SetLocationHref "lightningmealplans://verify-email-complete";
                       Verify.SetTimeout 1000] /\
    Verify.timers q
    = Verify.timers p ++ ["If the app did not open automatically, please return to the Lightning Meal Plans app and sign in."] /\
    (Verify.timers p = [] ->
     Verify.log (Verify.step Verify.TimerFired q)
     = Verify.log q ++ [Verify.Alert "If the app did not open automatically, please return to the Lightning Meal Plans app and sign in."]) /\
    (* no other event makes the script navigate or set a timer *)
    forall (ev : Verify.Event) (r : Verify.Page),
      ev <> Verify.ReturnToAppCalled ->
      List.filter Verify.deep_link_effect (Verify.log (Verify.step ev r))
      = List.filter Verify.deep_link_effect (Verify.log r) /\
      length (Verify.timers (Verify.step ev r)) <= length (Verify.timers r).
Proof.
  intros p H p'.
  destruct (applyActionCode_resolved p H) as (Hd & Hl & Ht). fold p' in Hd, Hl, Ht.
  destruct (showSuccess_panels (Verify.doc p)) as (s1 & s2 & s3).
  destruct (returnToApp_effects p') as (Rl & Rt & _).
  rewrite Hl in Rl. rewrite Ht in Rt.
  split; [exact Hd|]. rewrite Hd.
  split; [exact s2|].
  split; [unfold Verify.active_panels; rewrite s1, s2, s3; reflexivity|].
  split; [exact Hl|]. split; [exact Ht|].
  intros q. split; [exact Rl|]. split; [exact Rt|].
  split; [|exact only_returnToApp_returns].
  intros Hnone. apply timer_fired with (rest := []).
  fold p' q in Rt. rewrite Rt, Hnone. reflexivity.
Qed.

Lemma C1_witness :
  let p := Verify.step Verify.DOMContentLoaded
             (Verify.fresh [("mode", "verifyEmail"); ("oobCode", "c0de"); ("apiKey", "k3y")]
                           (Some Verify.working_sdk)) in
  let p' := Verify.step (Verify.ApplyActionCodeSettled Resolves) p in
  let q := Verify.step Verify.ReturnToAppCalled p' in
  Verify.awaiting_applyActionCode p = true /\
  Verify.timers p = [] /\
  Verify.log p' = Verify.log p /\
  Verify.log (Verify.step Verify.TimerFired q)
  = Verify.log q ++ [Verify.Alert "If the app did not open automatically, please return to the Lightning Meal Plans app and sign in."].
Proof.
  cbv zeta. split; [reflexivity|]. split; [reflexivity|].
  pose proof (C1_success_shows_panel_without_deep_link
       (Verify.step Verify.DOMContentLoaded
          (Verify.fresh [("mode", "verifyEmail"); ("oobCode", "c0de"); ("apiKey", "k3y")]
                        (Some Verify.working_sdk)))
       eq_refl) as H.
  cbv zeta in H. destruct H as (_ & _ & _ & Hlog & _ & _ & _ & Htimer & _).
  split; [exact Hlog|exact (Htimer eq_refl)].
Defined.

(** ** The reset page, event by event *)

Ltac reset_script :=
  cbv [Reset.run Reset.step Reset.onDOMContentLoaded
       Reset.initializePasswordReset Reset.initializePasswordReset_resume
       Reset.initializePasswordReset_catch Reset.getUrlParameters
       Reset.displayMessage Reset.hideMessage
       Reset.firebase_initializeApp Reset.firebase_auth
       Reset.getElementById Reset.querySelector_submit Reset.handleFormSubmit
       Reset.confirmPasswordReset_then Reset.confirmPasswordReset_catch
       Reset.confirmPasswordReset_settled
       JS.deref JS.bind JS.gets JS.modify JS.ret JS.try_catch JS.throw
       Reset.set_status Reset.set_form Reset.set_app_initialized
       Reset.set_submit_listener Reset.set_awaiting Reset.set_in_flight Reset.emit
       Reset.on_control
       Reset.status Reset.form Reset.search Reset.firebase Reset.app_initialized
       Reset.submit_listener Reset.awaiting_verifyPasswordResetCode Reset.in_flight
       Reset.log Reset.oobCode Reset.apiKey Reset.mode
       Reset.classList Reset.textContent
       mbind option_bind fmap option_fmap option_map fst snd negb].

Section ResetPage.

Import Reset.

(** What [displayMessage] does to a page. *)
Lemma displayMessage_effect text isError p :
  let p' := snd (displayMessage text isError p) in
  fst (displayMessage text isError p) = inl tt /\
  (status p <> None -> displayed p' = Some text) /\
  log p' = log p ++ match status p with Some _ => [ScrollIntoView] | None => [] end /\
  form p' = form p /\ search p' = search p /\ firebase p' = firebase p /\
  app_initialized p' = app_initialized p /\
  submit_listener p' = submit_listener p /\
  awaiting_verifyPasswordResetCode p' = awaiting_verifyPasswordResetCode p /\
  in_flight p' = in_flight p.
Proof.
  destruct p as [st ? ? ? ? ? ? ? ?]. cbv zeta. destruct st as [b|].
  - reset_script. split; [reflexivity|]. split; [|auto 10].
    intros _. unfold displayed. reset_script. rewrite contains_remove. reflexivity.
  - reset_script. rewrite app_nil_r. split; [reflexivity|].
    split; [intros H; contradiction|auto 10].
Qed.

(** The three guards of [initializePasswordReset] return before the
    [try] block is entered. *)
Lemma initializePasswordReset_missing_code p :
  truthy (get "oobCode" (search p)) = false ->
  initializePasswordReset p
  = displayMessage "Invalid password reset link. Missing verification code." true
      (emit LocationSearchRead p).
Proof.
  destruct p; cbn [search]; intros H.
  cbv [initializePasswordReset getUrlParameters JS.bind JS.gets JS.modify JS.ret
       search emit oobCode].
  rewrite H. reflexivity.
Qed.

Lemma initializePasswordReset_missing_key p :
  truthy (get "oobCode" (search p)) = true ->
  truthy (get "apiKey" (search p)) = false ->
  initializePasswordReset p
  = displayMessage "Invalid password reset link. Missing API key." true
      (emit LocationSearchRead p).
Proof.
  destruct p; cbn [search]; intros H1 H2.
  cbv [initializePasswordReset getUrlParameters JS.bind JS.gets JS.modify JS.ret
       search emit oobCode apiKey].
  rewrite H1, H2. reflexivity.
Qed.

Lemma initializePasswordReset_wrong_mode p :
  truthy (get "oobCode" (search p)) = true ->
  truthy (get "apiKey" (search p)) = true ->
  strict_eq (get "mode" (search p)) "resetPassword" = false ->
  initializePasswordReset p
  = displayMessage "Invalid password reset link. Incorrect mode." true
      (emit LocationSearchRead p).
Proof.
  destruct p; cbn [search]; intros H1 H2 H3.
  cbv [initializePasswordReset getUrlParameters JS.bind JS.gets JS.modify JS.ret
       search emit oobCode apiKey mode].
  rewrite H1, H2, H3. reflexivity.
Qed.

(** The page after [DOMContentLoaded] when a guard has fired: the message
    is shown, the listener is attached, and nothing else has changed. *)
Lemma guard_fired_on_load p sdk text :
  firebase p = Some sdk ->
  initializePasswordReset p = displayMessage text true (emit LocationSearchRead p) ->
  let p' := step DOMContentLoaded p in
  (status p <> None -> displayed p' = Some text) /\
  log p' = log p ++ [LocationSearchRead]
             ++ match status p with Some _ => [ScrollIntoView] | None => [] end /\
  form p' = form p /\ search p' = search p /\ firebase p' = firebase p /\
  app_initialized p' = app_initialized p /\
  submit_listener p' = match form p with Some _ => true | None => submit_listener p end /\
  awaiting_verifyPasswordResetCode p' = awaiting_verifyPasswordResetCode p /\
  in_flight p' = in_flight p.
Proof.
  destruct p as [st fm sr fb ai sl aw fl lg]; cbn [firebase]; intros Hsdk Hinit. subst fb.
  cbv zeta. unfold step, run, onDOMContentLoaded.
  cbv [JS.bind JS.gets JS.try_catch firebase]. rewrite Hinit.
  destruct st as [b|], fm as [controls|]; reset_script;
    (split; [intros Hst; try contradiction;
             unfold displayed; reset_script; rewrite contains_remove; reflexivity|]);
    rewrite <- ?app_assoc; auto 10.
Qed.

End ResetPage.

(** C2. On each page the link is checked in the order code, API key, mode,
    before anything is asked of the provider: the first check that fails
    shows its own message, and the script stops there; no provider call is
    made and none is left pending. *)
Theorem C2_link_guards_show_their_message_and_call_nothing :
  (forall (p : Verify.Page) (sdk : Sdk),
     Verify.firebase p = Some sdk ->
     let query := Verify.search p in
     let p' := Verify.step Verify.DOMContentLoaded p in
     let stopped_with text :=
       Verify.textContent (Verify.error_message (Verify.doc p')) = text /\
       Verify.active (Verify.error (Verify.doc p')) = true /\
       Verify.log p' = Verify.log p ++ [Verify.LocationSearchRead] /\
       Verify.awaiting_applyActionCode p' = Verify.awaiting_applyActionCode p in
     (truthy (get "oobCode" query) = false ->
      stopped_with "Invalid verification link. Missing verification code.") /\
     (truthy (get "oobCode" query) = true ->
      truthy (get "apiKey" query) = false ->
      stopped_with "Invalid verification link. Missing API key.") /\
     (truthy (get "oobCode" query) = true ->
      truthy (get "apiKey" query) = true ->
      strict_eq (get "mode" query) "verifyEmail" = false ->
      stopped_with "Invalid verification link. This link is not for email verification."))
  /\
  (forall (p : Reset.Page) (sdk : Sdk) (banner : Reset.Banner),
     Reset.firebase p = Some sdk ->
     Reset.status p = Some banner ->
     let query := Reset.search p in
     let p' := Reset.step Reset.DOMContentLoaded p in
     let stopped_with text :=
       Reset.displayed p' = Some text /\
       Reset.log p' = Reset.log p ++ [Reset.LocationSearchRead; Reset.ScrollIntoView] /\
       Reset.awaiting_verifyPasswordResetCode p' = Reset.awaiting_verifyPasswordResetCode p /\
       Reset.in_flight p' = Reset.in_flight p in
     (truthy (get "oobCode" query) = false ->
      stopped_with "Invalid password reset link. Missing verification code.") /\
     (truthy (get "oobCode" query) = true ->
      truthy (get "apiKey" query) = false ->
      stopped_with "Invalid password reset link. Missing API key.") /\
     (truthy (get "oobCode" query) = true ->
      truthy (get "apiKey" query) = true ->
      strict_eq (get "mode" query) "resetPassword" = false ->
      stopped_with "Invalid password reset link. Incorrect mode.")).
Proof.
  split.
  - intros p sdk Hsdk query p' stopped_with. subst query p' stopped_with. cbv beta.
    rewrite (onDOMContentLoaded_with_sdk p sdk Hsdk).
    split; [|split]; intros.
    + rewrite initializeEmailVerification_missing_code by assumption. apply guard_fired.
    + rewrite initializeEmailVerification_missing_key by assumption. apply guard_fired.
    + rewrite initializeEmailVerification_wrong_mode by assumption. apply guard_fired.
  - intros p sdk banner Hsdk Hbanner query p' stopped_with.
    assert (Hstop : forall text,
      Reset.initializePasswordReset p
      = Reset.displayMessage text true (Reset.emit Reset.LocationSearchRead p) ->
      stopped_with text).
    { intros text Hinit.
      destruct (guard_fired_on_load p sdk text Hsdk Hinit)
        as (Hd & Hl & _ & _ & _ & _ & _ & Hw & Hi).
      rewrite Hbanner in Hd, Hl. subst stopped_with p'. cbv beta.
      split; [apply Hd; discriminate|]. auto. }
    subst query. split; [|split]; intros; apply Hstop.
    + apply initializePasswordReset_missing_code; assumption.
    + apply initializePasswordReset_missing_key; assumption.
    + apply initializePasswordReset_wrong_mode; assumption.
Qed.

Lemma C2_witness :
  let shown query :=
    Verify.textContent (Verify.error_message (Verify.doc
      (Verify.step Verify.DOMContentLoaded (Verify.fresh query (Some Verify.working_sdk))))) in
  let banner query :=
    Reset.displayed
      (Reset.step Reset.DOMContentLoaded (Reset.fresh query (Some Reset.working_sdk))) in
  shown [("mode", "verifyEmail"); ("apiKey", "k3y")]
    = "Invalid verification link. Missing verification code." /\
  shown [("mode", "verifyEmail"); ("oobCode", "c0de")]
    = "Invalid verification link. Missing API key." /\
  shown [("mode", "resetPassword"); ("oobCode", "c0de"); ("apiKey", "k3y")]
    = "Invalid verification link. This link is not for email verification." /\
  banner [("mode", "resetPassword"); ("apiKey", "k3y")]
    = Some "Invalid password reset link. Missing verification code." /\
  banner [("mode", "resetPassword"); ("oobCode", "c0de")]
    = Some "Invalid password reset link. Missing API key." /\
  banner [("mode", "verifyEmail"); ("oobCode", "c0de"); ("apiKey", "k3y")]
    = Some "Invalid password reset link. Incorrect mode.".
Proof.
  cbv zeta.
  pose proof (fun query =>
    proj1 C2_link_guards_show_their_message_and_call_nothing
      (Verify.fresh query (Some Verify.working_sdk)) Verify.working_sdk eq_refl) as V.
  pose proof (fun query =>
    proj2 C2_link_guards_show_their_message_and_call_nothing
      (Reset.fresh query (Some Reset.working_sdk)) Reset.working_sdk
      (Reset.mkBanner {[ "hidden" ]} "") eq_refl eq_refl) as R.
  cbv zeta beta in V, R.
  split; [exact (proj1 (proj1 (V [("mode", "verifyEmail"); ("apiKey", "k3y")]) eq_refl))|].
  split; [exact (proj1 (proj1 (proj2 (V [("mode", "verifyEmail"); ("oobCode", "c0de")]))
                          eq_refl eq_refl))|].
  split; [exact (proj1 (proj2 (proj2
                   (V [("mode", "resetPassword"); ("oobCode", "c0de"); ("apiKey", "k3y")]))
                   eq_refl eq_refl eq_refl))|].
  split; [exact (proj1 (proj1 (R [("mode", "resetPassword"); ("apiKey", "k3y")]) eq_refl))|].
  split; [exact (proj1 (proj1 (proj2 (R [("mode", "resetPassword"); ("oobCode", "c0de")]))
                          eq_refl eq_refl))|].
  exact (proj1 (proj2 (proj2
           (R [("mode", "verifyEmail"); ("oobCode", "c0de"); ("apiKey", "k3y")]))
           eq_refl eq_refl eq_refl)).
Defined.

(** ** Local validation of the two password fields *)

(** C4 as the specification states it fails: with a new password and an
    empty confirmation, only the empty-confirmation message is produced;
    the banner shows it alone. *)
Lemma C4_counterexample :
  Reset.errors (Reset.validatePasswords "goodpass1" "") = ["Please confirm your password."] /\
  ~ In "Passwords do not match. Please try again."
       (Reset.errors (Reset.validatePasswords "goodpass1" "")) /\
  Reset.displayed
    (Reset.steps [Reset.DOMContentLoaded; Reset.Typed "new-password" "goodpass1"; Reset.Submit]
       (Reset.fresh [("mode", "resetPassword"); ("oobCode", "c0de"); ("apiKey", "k3y")]
                    (Some Reset.working_sdk)))
  = Some "Please confirm your password.".
Proof.
  split; [vm_compute; reflexivity|]. split; [|vm_compute; reflexivity].
  vm_compute. intros [H|[]]. discriminate H.
Qed.

(** C4, amended. An empty confirmation with a non-empty new password
    produces the empty-confirmation message and never the mismatch message:
    the two fields are compared only when both are non-empty. The two
    messages come together, joined by one space, when the confirmation is
    not empty but only white space, and differs from the new password. *)
Theorem C4_empty_confirmation_is_not_a_mismatch :
  forall newPassword : string,
    newPassword <> "" ->
    Reset.errors (Reset.validatePasswords newPassword "")
    = (if (trim newPassword =? "")%string then ["Password cannot be empty."] else [])
      ++ ["Please confirm your password."]
      ++ (if String.length newPassword <? 8
          then ["Password must be at least 8 characters long."] else []) /\
    ~ In "Passwords do not match. Please try again."
         (Reset.errors (Reset.validatePasswords newPassword "")) /\
    forall confirmPassword : string,
      confirmPassword <> "" ->
      trim confirmPassword = "" ->
      newPassword <> confirmPassword ->
      trim newPassword <> "" ->
      8 <= String.length newPassword ->
      String.concat " " (Reset.errors (Reset.validatePasswords newPassword confirmPassword))
      = "Please confirm your password. Passwords do not match. Please try again.".
Proof.
  intros newPassword Hnew.
  apply String.eqb_neq in Hnew.
  assert (Hempty : Reset.errors (Reset.validatePasswords newPassword "")
    = (if (trim newPassword =? "")%string then ["Password cannot be empty."] else [])
      ++ ["Please confirm your password."]
      ++ (if String.length newPassword <? 8
          then ["Password must be at least 8 characters long."] else [])).
  { unfold Reset.validatePasswords. rewrite Hnew.
    destruct (trim newPassword =? "")%string, (String.length newPassword <? 8);
      reflexivity. }
  split; [exact Hempty|]. split.
  - rewrite Hempty.
    destruct (trim newPassword =? "")%string, (String.length newPassword <? 8);
      cbn; intros H; repeat (destruct H as [H|H]; [discriminate H|]); exact H.
  - intros confirmPassword Hconfirm Hblank Hdiffer Htrim Hlong.
    unfold Reset.validatePasswords.
    apply String.eqb_neq in Hconfirm, Hdiffer, Htrim.
    apply Nat.ltb_ge in Hlong.
    rewrite Hnew, Hconfirm, Hdiffer, Htrim, Hblank, Hlong. reflexivity.
Qed.

Lemma C4_witness :
  "goodpass1" <> "" /\
  String.concat " " (Reset.errors (Reset.validatePasswords "goodpass1" " "))
  = "Please confirm your password. Passwords do not match. Please try again.".
Proof.
  split; [discriminate|].
  exact (proj2 (proj2 (C4_empty_confirmation_is_not_a_mismatch "goodpass1"
    ltac:(discriminate))) " " ltac:(discriminate) eq_refl ltac:(discriminate)
    ltac:(discriminate) ltac:(cbn; lia)).
Defined.

(** ** Submitting the form *)

Section Submission.

Import Reset.

(** A submission that passes the local validation asks the provider to
    confirm the reset, with the [oobCode] found in the query string when
    the form is submitted. *)
Lemma handleFormSubmit_calls_provider p newPassword confirmPassword i button sdk :
  field_value "new-password" p = Some newPassword ->
  field_value "confirm-password" p = Some confirmPassword ->
  isValid (validatePasswords newPassword confirmPassword) = true ->
  fst (querySelector_submit p) = inl (Some (i, button)) ->
  firebase p = Some sdk ->
  auth_throws sdk (app_initialized p) = None ->
  let p' := run handleFormSubmit p in
  log p' = log p ++ [PreventDefault; LocationSearchRead; AuthCall;
                     ConfirmPasswordReset (get "oobCode" (search p)) newPassword] /\
  in_flight p' = in_flight p ++ [(i, label button)] /\
  search p' = search p.
Proof.
  destruct p as [st fm sr fb ai sl aw fl lg].
  cbv [field_value form firebase app_initialized mbind option_bind].
  intros Hnew Hconfirm Hvalid Hbutton Hsdk Hauth. subst fb.
  destruct fm as [controls|]; [|discriminate Hnew].
  cbv [querySelector_submit JS.bind JS.gets JS.deref JS.ret form fst] in Hbutton.
  injection Hbutton as Hbutton.
  destruct (list_find (fun c => id c = "new-password") controls) as [[? c1]|] eqn:F1;
    [|discriminate Hnew].
  destruct (list_find (fun c => id c = "confirm-password") controls) as [[? c2]|] eqn:F2;
    [|discriminate Hconfirm].
  cbn in Hnew, Hconfirm. injection Hnew as Hnew. injection Hconfirm as Hconfirm.
  cbv zeta. destruct st as [b|]; reset_script;
    rewrite F1, F2; reset_script; rewrite Hnew, Hconfirm, Hvalid; reset_script;
    rewrite Hbutton; reset_script; rewrite Hauth; reset_script;
    rewrite <- !app_assoc; auto.
Qed.

(** Typing changes the form and nothing else. *)
Lemma typed_frame name text p :
  let p' := step (Typed name text) p in
  status p' = status p /\ search p' = search p /\ firebase p' = firebase p /\
  app_initialized p' = app_initialized p /\ submit_listener p' = submit_listener p /\
  awaiting_verifyPasswordResetCode p' = awaiting_verifyPasswordResetCode p /\
  in_flight p' = in_flight p /\ log p' = log p.
Proof. destruct p. cbv zeta. reset_script. auto 10. Qed.

Lemma submit_dispatched p :
  submit_listener p = true -> can_submit p = true ->
  step Submit p = run handleFormSubmit p.
Proof. intros H1 H2. unfold step. rewrite H1, H2. reflexivity. Qed.

End Submission.

(** ** Reading the query string *)

Lemma verify_location_reads_app l1 l2 :
  Verify.location_reads (l1 ++ l2) = Verify.location_reads l1 + Verify.location_reads l2.
Proof. unfold Verify.location_reads. rewrite List.filter_app, length_app. reflexivity. Qed.

Lemma reset_location_reads_app l1 l2 :
  Reset.location_reads (l1 ++ l2) = Reset.location_reads l1 + Reset.location_reads l2.
Proof. unfold Reset.location_reads. rewrite List.filter_app, length_app. reflexivity. Qed.

Ltac count_reads :=
  rewrite ?verify_location_reads_app, ?reset_location_reads_app;
  cbn [Verify.location_reads Reset.location_reads List.filter length];
  lia.

Section LocationReads.

(** The verification page reads the query string when it is loaded, and
    at no other time. *)
Lemma verify_reads_on_load p sdk :
  Verify.firebase p = Some sdk ->
  Verify.location_reads (Verify.log (Verify.step Verify.DOMContentLoaded p))
  = S (Verify.location_reads (Verify.log p)).
Proof.
  destruct p as [d sr fb ai aw ts lg]; cbn [Verify.firebase]; intros H. subst fb.
  verify_script. split_paths verify_script; count_reads.
Qed.

Lemma verify_no_read_later ev p :
  ev <> Verify.DOMContentLoaded ->
  Verify.location_reads (Verify.log (Verify.step ev p))
  = Verify.location_reads (Verify.log p).
Proof.
  destruct p as [d sr fb ai aw ts lg]. intros Hev.
  destruct ev as [|[|e]| |]; [contradiction| | | |]; verify_script;
    split_paths verify_script; count_reads.
Qed.

(** The reset page reads it when it is loaded... *)
Lemma reset_reads_on_load p sdk :
  Reset.firebase p = Some sdk ->
  Reset.location_reads (Reset.log (Reset.step Reset.DOMContentLoaded p))
  = S (Reset.location_reads (Reset.log p)).
Proof.
  destruct p as [st fm sr fb ai sl aw fl lg]; cbn [Reset.firebase]; intros H. subst fb.
  reset_script. split_paths reset_script; count_reads.
Qed.

(** ... and once more each time the form is submitted. *)
Lemma reset_reads_on_submit p newPassword confirmPassword :
  Reset.field_value "new-password" p = Some newPassword ->
  Reset.field_value "confirm-password" p = Some confirmPassword ->
  Reset.location_reads (Reset.log (Reset.run Reset.handleFormSubmit p))
  = S (Reset.location_reads (Reset.log p)).
Proof.
  destruct p as [st fm sr fb ai sl aw fl lg].
  cbv [Reset.field_value Reset.form mbind option_bind].
  intros Hnew Hconfirm.
  destruct fm as [controls|]; [|discriminate Hnew].
  destruct (list_find (fun c => Reset.id c = "new-password") controls)
    as [[? c1]|] eqn:F1; [|discriminate Hnew].
  destruct (list_find (fun c => Reset.id c = "confirm-password") controls)
    as [[? c2]|] eqn:F2; [|discriminate Hconfirm].
  destruct st as [b|]; reset_script; rewrite F1, F2; reset_script;
    split_paths reset_script; count_reads.
Qed.

Lemma reset_no_read_otherwise ev p :
  ev <> Reset.DOMContentLoaded -> ev <> Reset.Submit ->
  Reset.location_reads (Reset.log (Reset.step ev p))
  = Reset.location_reads (Reset.log p).
Proof.
  destruct p as [st fm sr fb ai sl aw fl lg]. intros H1 H2.
  destruct ev as [|[|e]|name text| |n [|e]]; try contradiction; reset_script;
    split_paths reset_script; count_reads.
Qed.

(** No event makes the script change the query string. *)
Lemma reset_search_unchanged ev p :
  Reset.search (Reset.step ev p) = Reset.search p.
Proof.
  destruct p as [st fm sr fb ai sl aw fl lg].
  destruct ev as [|[|e]|name text| |n [|e]]; reset_script;
    split_paths reset_script; reflexivity.
Qed.

End LocationReads.

(** C7 as the specification states it fails on the reset page: within one
    page load the query string has been read twice once the form has been
    submitted, and a third time after a second submission. *)
Lemma C7_counterexample :
  let loaded := Reset.step Reset.DOMContentLoaded
                  (Reset.fresh [("mode", "resetPassword"); ("oobCode", "c0de"); ("apiKey", "k3y")]
                               (Some Reset.working_sdk)) in
  let submitted := Reset.steps [Reset.Typed "new-password" "goodpass1";
                                Reset.Typed "confirm-password" "goodpass1";
                                Reset.Submit] loaded in
  let again := Reset.steps [Reset.ConfirmPasswordResetSettled 0
                              (Rejects (mkError (Some "auth/network-request-failed") None));
                            Reset.Submit] submitted in
  Reset.location_reads (Reset.log loaded) = 1 /\
  Reset.location_reads (Reset.log submitted) = 2 /\
  Reset.location_reads (Reset.log again) = 3.
Proof. cbv zeta. split; [|split]; vm_compute; reflexivity. Qed.

(** C7, amended. Each page reads the three URL parameters from the page
    location once when it is loaded. The reset page's submit handler does
    not keep them: it reads them from the page location again at every
    submission and works with the values it has just read. No script
    changes the query string, so these are the values of load time as long
    as nothing outside the scripts changes it. *)
Theorem C7_parameters_read_at_load_and_at_every_submission :
  (forall (p : Verify.Page) (sdk : Sdk),
     Verify.firebase p = Some sdk ->
     Verify.location_reads (Verify.log (Verify.step Verify.DOMContentLoaded p))
     = S (Verify.location_reads (Verify.log p))) /\
  (forall (ev : Verify.Event) (p : Verify.Page),
     ev <> Verify.DOMContentLoaded ->
     Verify.location_reads (Verify.log (Verify.step ev p))
     = Verify.location_reads (Verify.log p)) /\
  (forall (p : Reset.Page) (sdk : Sdk),
     Reset.firebase p = Some sdk ->
     Reset.location_reads (Reset.log (Reset.step Reset.DOMContentLoaded p))
     = S (Reset.location_reads (Reset.log p))) /\
  (forall (p : Reset.Page) (newPassword confirmPassword : string),
     Reset.submit_listener p = true ->
     Reset.can_submit p = true ->
     Reset.field_value "new-password" p = Some newPassword ->
     Reset.field_value "confirm-password" p = Some confirmPassword ->
     Reset.location_reads (Reset.log (Reset.step Reset.Submit p))
     = S (Reset.location_reads (Reset.log p)) /\
     forall (i : nat) (button : Reset.Control) (sdk : Sdk),
       Reset.isValid (Reset.validatePasswords newPassword confirmPassword) = true ->
       fst (Reset.querySelector_submit p) = inl (Some (i, button)) ->
       Reset.firebase p = Some sdk ->
       auth_throws sdk (Reset.app_initialized p) = None ->
       Reset.log (Reset.step Reset.Submit p)
       = Reset.log p ++ [Reset.PreventDefault; Reset.LocationSearchRead; Reset.AuthCall;
                         Reset.ConfirmPasswordReset (get "oobCode" (Reset.search p))
                                                    newPassword]) /\
  (forall (ev : Reset.Event) (p : Reset.Page),
     Reset.search (Reset.step ev p) = Reset.search p).
Proof.
  split; [exact verify_reads_on_load|].
  split; [exact verify_no_read_later|].
  split; [exact reset_reads_on_load|].
  split; [|exact reset_search_unchanged].
  intros p newPassword confirmPassword Hlistener Hcan Hnew Hconfirm.
  rewrite (submit_dispatched p Hlistener Hcan). split.
  - apply reset_reads_on_submit with (1 := Hnew) (2 := Hconfirm).
  - intros i button sdk Hvalid Hbutton Hsdk Hauth.
    apply (handleFormSubmit_calls_provider p newPassword confirmPassword i button sdk
             Hnew Hconfirm Hvalid Hbutton Hsdk Hauth).
Qed.

Lemma C7_witness :
  let p := Reset.steps [Reset.DOMContentLoaded;
                        Reset.Typed "new-password" "goodpass1";
                        Reset.Typed "confirm-password" "goodpass1"]
             (Reset.fresh [("mode", "resetPassword"); ("oobCode", "c0de"); ("apiKey", "k3y")]
                          (Some Reset.working_sdk)) in
  let v := Verify.step Verify.DOMContentLoaded
             (Verify.fresh [("mode", "verifyEmail"); ("oobCode", "c0de"); ("apiKey", "k3y")]
                           (Some Verify.working_sdk)) in
  Verify.location_reads (Verify.log v) = 1 /\
  Verify.location_reads (Verify.log (Verify.step (Verify.ApplyActionCodeSettled Resolves) v)) = 1 /\
  Reset.location_reads (Reset.log p) = 1 /\
  Reset.location_reads (Reset.log (Reset.step Reset.Submit p)) = 2 /\
  Reset.log (Reset.step Reset.Submit p)
  = Reset.log p ++ [Reset.PreventDefault; Reset.LocationSearchRead; Reset.AuthCall;
                    Reset.ConfirmPasswordReset (Some "c0de") "goodpass1"].
Proof.
  cbv zeta.
  destruct C7_parameters_read_at_load_and_at_every_submission
    as (Vload & Vlater & Rload & Rsubmit & _).
  split; [exact (Vload (Verify.fresh _ (Some Verify.working_sdk)) Verify.working_sdk eq_refl)|].
  split; [exact (Vlater (Verify.ApplyActionCodeSettled Resolves)
                   (Verify.step Verify.DOMContentLoaded (Verify.fresh _ (Some Verify.working_sdk)))
                   ltac:(discriminate))|].
  split; [exact (Rload (Reset.fresh _ (Some Reset.working_sdk)) Reset.working_sdk eq_refl)|].
  pose proof (Rsubmit
      (Reset.steps [Reset.DOMContentLoaded;
                    Reset.Typed "new-password" "goodpass1";
                    Reset.Typed "confirm-password" "goodpass1"]
         (Reset.fresh [("mode", "resetPassword"); ("oobCode", "c0de"); ("apiKey", "k3y")]
                      (Some Reset.working_sdk)))
      "goodpass1" "goodpass1" eq_refl eq_refl eq_refl eq_refl) as [Hcount Hcall].
  split; [exact Hcount|].
  exact (Hcall 2
    (Reset.mkControl Reset.Button "submit-button" "submit" "" "" false "Reset Password")
    Reset.working_sdk eq_refl eq_refl eq_refl eq_refl).
Defined.

(** ** The form after a rejected verification of the reset code *)

Section DisabledForm.

Import Reset.

Lemma disable_all_locked controls :
  forallb locked
    ((fun input => if input_or_button input then set_disabled true input else input)
       <$> controls) = true.
Proof.
  induction controls as [|c rest IH]; [reflexivity|].
  cbn [fmap list_fmap forallb]. rewrite IH, andb_true_r.
  unfold locked. destruct c as [[] ? ? ? ? ? ?]; reflexivity.
Qed.

Lemma forallb_alter (P : Control -> bool) (f : Control -> Control) i controls :
  (forall c, P (f c) = P c) ->
  forallb P (alter f i controls) = forallb P controls.
Proof.
  intros H. revert i.
  induction controls as [|c rest IH]; intros [|i]; cbn; rewrite ?H, ?IH; reflexivity.
Qed.

Lemma type_into_locked name text controls :
  forallb locked (type_into name text controls) = forallb locked controls.
Proof.
  unfold type_into.
  destruct (list_find _ controls) as [[i c]|]; [|reflexivity].
  destruct (disabled c); [reflexivity|].
  apply forallb_alter. intros []; reflexivity.
Qed.

(** A form whose inputs and buttons are all disabled cannot be submitted. *)
Lemma locked_cannot_submit controls :
  forallb locked controls = true ->
  existsb (fun c => input_or_button c && (type_attr c =? "submit")%string
                    && negb (disabled c)) controls = false.
Proof.
  induction controls as [|c rest IH]; [reflexivity|].
  cbn [forallb existsb]. intros H. apply andb_prop in H. destruct H as [Hc Hrest].
  rewrite (IH Hrest), orb_false_r. unfold locked in Hc.
  destruct (input_or_button c); [|reflexivity].
  cbn in Hc. rewrite Hc. cbn. apply andb_false_r.
Qed.

(** The rejection of the verify-only check shows the mapped message and
    disables every input and button of the form. *)
Lemma verification_rejected p error :
  awaiting_verifyPasswordResetCode p = true ->
  let p' := step (VerifyPasswordResetCodeSettled (Rejects error)) p in
  (status p <> None -> displayed p' = Some (getFirebaseErrorMessage error)) /\
  all_disabled p' = true /\
  in_flight p' = in_flight p.
Proof.
  destruct p as [st fm sr fb ai sl aw fl lg]; cbn [awaiting_verifyPasswordResetCode].
  intros H. subst aw. cbv zeta.
  destruct st as [b|], fm as [controls|]; reset_script;
    (split; [intros Hst; try contradiction;
             unfold displayed; reset_script; rewrite contains_remove; reflexivity|]);
    (split; [|reflexivity]); unfold all_disabled; cbn [form];
    try reflexivity; apply disable_all_locked.
Qed.

(** With nothing in flight, a disabled form stays disabled whatever
    happens next. *)
Lemma step_keeps_disabled ev p :
  all_disabled p = true -> in_flight p = [] ->
  all_disabled (step ev p) = true /\ in_flight (step ev p) = [].
Proof.
  destruct p as [st fm sr fb ai sl aw fl lg]. unfold all_disabled at 1.
  cbn [form in_flight]. intros Hlocked Hnone. subst fl.
  destruct ev as [|[|e]|name text| |n outcome].
  - reset_script. split_paths reset_script; unfold all_disabled; cbn [form in_flight];
      auto using disable_all_locked.
  - reset_script. split_paths reset_script; unfold all_disabled; cbn [form in_flight];
      auto using disable_all_locked.
  - reset_script. split_paths reset_script; unfold all_disabled; cbn [form in_flight];
      auto using disable_all_locked.
  - reset_script. unfold all_disabled; cbn [form in_flight].
    destruct fm as [controls|]; [|auto].
    rewrite type_into_locked. auto.
  - unfold step, can_submit; cbn [form submit_listener].
    destruct fm as [controls|].
    + rewrite (locked_cannot_submit controls Hlocked), andb_false_r.
      unfold all_disabled; cbn [form in_flight]. auto.
    + rewrite andb_false_r. auto.
  - unfold step; cbn [in_flight]. rewrite lookup_nil.
    unfold all_disabled; cbn [form in_flight]. auto.
Qed.

Lemma stays_disabled_when_nothing_in_flight evs :
  forall p,
    all_disabled p = true -> in_flight p = [] ->
    all_disabled (steps evs p) = true.
Proof.
  induction evs as [|ev rest IH]; intros p Hlocked Hnone; [exact Hlocked|].
  destruct (step_keeps_disabled ev p Hlocked Hnone) as [H1 H2].
  unfold steps; cbn [fold_left]. apply IH; assumption.
Qed.

End DisabledForm.

(** C6. The rejection of the verify-only check shows the mapped message and
    disables every input and button of the form; the specification adds
    that nothing enables them again during the page load. The script does
    not keep that: when the form is submitted while the check is still
    pending, the rejection handler of [confirmPasswordReset] runs after the
    form has been disabled and enables the submit button again. *)
Theorem C6_submission_in_flight_enables_submit_button_again :
  let rejection := Rejects (mkError (Some "auth/invalid-action-code") None) in
  let loaded :=
    Reset.step Reset.DOMContentLoaded
      (Reset.fresh [("mode", "resetPassword"); ("oobCode", "c0de"); ("apiKey", "k3y")]
                   (Some Reset.working_sdk)) in
  let submitted :=
    Reset.steps [Reset.Typed "new-password" "goodpass1";
                 Reset.Typed "confirm-password" "goodpass1";
                 Reset.Submit] loaded in
  let rejected := Reset.step (Reset.VerifyPasswordResetCodeSettled rejection) submitted in
  let late := Reset.step (Reset.ConfirmPasswordResetSettled 0 rejection) rejected in
  Reset.awaiting_verifyPasswordResetCode submitted = true /\
  Reset.in_flight submitted = [(2, "Reset Password")] /\
  Reset.displayed rejected
  = Some "This password reset link is invalid or has already been used. Please request a new one." /\
  Reset.all_disabled rejected = true /\
  Reset.all_disabled late = false /\
  Reset.form late
  = Some [ Reset.mkControl Reset.Input "new-password" "password" "goodpass1" "" true "";
           Reset.mkControl Reset.Input "confirm-password" "password" "goodpass1" "" true "";
           Reset.mkControl Reset.Button "submit-button" "submit" "" "" false "Reset Password" ] /\
  Reset.can_submit late = true.
Proof. cbv zeta. repeat (split; [vm_compute; reflexivity|]). vm_compute; reflexivity. Qed.

(** * Further properties of the two scripts *)

(** ** Parameter extraction *)

Section Extraction.

Lemma get_filter (wanted : string -> bool) name entries :
  wanted name = true ->
  get name (List.filter (fun kv => wanted (fst kv)) entries) = get name entries.
Proof.
  intros Hname. induction entries as [|[k v] rest IH]; [reflexivity|].
  cbn [List.filter fst]. destruct (wanted k) eqn:Hk; cbn [get].
  - rewrite IH. reflexivity.
  - rewrite IH. destruct (String.eqb_spec k name) as [->|_]; [congruence|reflexivity].
Qed.

Lemma get_absent name entries :
  ~ In name (map fst entries) -> get name entries = None.
Proof.
  induction entries as [|[k v] rest IH]; [reflexivity|].
  cbn [map fst In get]. intros H.
  destruct (String.eqb_spec k name) as [->|_]; [tauto|]. apply IH. tauto.
Qed.

Lemma get_present name entries v :
  get name entries = Some v -> In (name, v) entries.
Proof.
  induction entries as [|[k w] rest IH]; [discriminate|].
  cbn [get]. destruct (String.eqb_spec k name) as [->|_].
  - intros [= ->]. left. reflexivity.
  - intros H. right. apply IH, H.
Qed.

End Extraction.

(** X1. [getUrlParameters] looks at the three names it asks for and at
    nothing else: the other parameters of the link can be dropped without
    changing what either page extracts. A name the link does not carry is
    extracted as [null], and a value extracted for a name is one the link
    carries under that name. *)
Theorem X1_getUrlParameters_ignores_other_parameters :
  forall entries : list (string * string),
    let asked kv := existsb (String.eqb (fst kv)) ["oobCode"; "apiKey"; "mode"] in
    (forall d fb ai aw ts lg,
       fst (Verify.getUrlParameters (Verify.mkPage d (List.filter asked entries) fb ai aw ts lg))
       = fst (Verify.getUrlParameters (Verify.mkPage d entries fb ai aw ts lg))) /\
    (forall st fm fb ai sl aw fl lg,
       fst (Reset.getUrlParameters
              (Reset.mkPage st fm (List.filter asked entries) fb ai sl aw fl lg))
       = fst (Reset.getUrlParameters (Reset.mkPage st fm entries fb ai sl aw fl lg))) /\
    (forall st fm fb ai sl aw fl lg,
       ~ In "oobCode" (map fst entries) ->
       fst (Reset.getUrlParameters (Reset.mkPage st fm entries fb ai sl aw fl lg))
       = inl (Reset.mkParams None (get "apiKey" entries) (get "mode" entries))) /\
    (forall name v, get name entries = Some v -> In (name, v) entries).
Proof.
  intros entries asked.
  pose (wanted := fun k => existsb (String.eqb k) ["oobCode"; "apiKey"; "mode"]).
  assert (H1 := get_filter wanted "oobCode" entries eq_refl).
  assert (H2 := get_filter wanted "apiKey" entries eq_refl).
  assert (H3 := get_filter wanted "mode" entries eq_refl).
  change (fun kv : string * string => wanted (fst kv)) with asked in H1, H2, H3.
  split; [|split; [|split]].
  - intros. verify_script. rewrite H1, H2, H3. reflexivity.
  - intros. reset_script. rewrite H1, H2, H3. reflexivity.
  - intros st fm fb ai sl aw fl lg Habsent. reset_script.
    rewrite (get_absent "oobCode" entries Habsent). reflexivity.
  - intros name v. apply get_present.
Qed.

Lemma X1_witness :
  fst (Reset.getUrlParameters
         (Reset.fresh [("lang", "en"); ("mode", "resetPassword"); ("apiKey", "k3y")] None))
  = inl (Reset.mkParams None (Some "k3y") (Some "resetPassword")).
Proof.
  exact (proj1 (proj2 (proj2 (X1_getUrlParameters_ignores_other_parameters
    [("lang", "en"); ("mode", "resetPassword"); ("apiKey", "k3y")])))
    _ _ _ _ _ _ _ _
    ltac:(cbn; intros H; repeat (destruct H as [H|H]; [discriminate H|]); exact H)).
Defined.

(** ** The verification page: the paths through the provider *)

Section VerifyPaths.

Import Verify.

Lemma active_panels_showError d text errorCode :
  active_panels (showError text errorCode d) = 1.
Proof.
  destruct (showError_panels d text errorCode) as (H1 & H2 & H3).
  unfold active_panels. rewrite H1, H2, H3. reflexivity.
Qed.

Lemma active_panels_showSuccess d : active_panels (showSuccess d) = 1.
Proof.
  destruct (showSuccess_panels d) as (H1 & H2 & H3).
  unfold active_panels. rewrite H1, H2, H3. reflexivity.
Qed.

Lemma applyActionCode_rejected p error :
  awaiting_applyActionCode p = true ->
  let p' := step (ApplyActionCodeSettled (Rejects error)) p in
  doc p' = handleVerificationError error (doc p) /\
  log p' = log p ++ [ConsoleError "Verification error:" error] /\
  awaiting_applyActionCode p' = false /\
  timers p' = timers p.
Proof.
  destruct p; cbn [awaiting_applyActionCode]; intros H. subst.
  cbv zeta. verify_script. auto.
Qed.

Lemma count_app f l1 l2 : count f (l1 ++ l2) = count f l1 + count f l2.
Proof. unfold count. rewrite List.filter_app, length_app. reflexivity. Qed.

End VerifyPaths.

(** X2. When the provider's SDK has not been loaded, the verification page
    shows the SDK message in the error panel, which becomes the only active
    panel, and does nothing else: it does not read the link and asks
    nothing of the provider. *)
Theorem X2_verification_without_sdk :
  forall p : Verify.Page,
    Verify.firebase p = None ->
    let p' := Verify.step Verify.DOMContentLoaded p in
    Verify.textContent (Verify.error_message (Verify.doc p'))
    = "Failed to load Firebase SDK. Please refresh the page and try again." /\
    Verify.active (Verify.error (Verify.doc p')) = true /\
    Verify.active_panels (Verify.doc p') = 1 /\
    Verify.error_code (Verify.doc p') = Verify.error_code (Verify.doc p) /\
    Verify.log p' = Verify.log p /\
    Verify.awaiting_applyActionCode p' = Verify.awaiting_applyActionCode p.
Proof.
  intros [d sr fb ai aw ts lg]; cbn [Verify.firebase]; intros H. subst fb.
  cbv zeta. verify_script.
  rewrite showError_message, active_panels_showError.
  destruct (showError_panels d
    "Failed to load Firebase SDK. Please refresh the page and try again." None)
    as (_ & _ & He).
  destruct (showError_falsy_code d
    "Failed to load Firebase SDK. Please refresh the page and try again." None eq_refl)
    as (Hc & _).
  auto 10.
Qed.

Lemma X2_witness :
  Verify.log (Verify.step Verify.DOMContentLoaded
    (Verify.fresh [("mode", "verifyEmail"); ("oobCode", "c0de"); ("apiKey", "k3y")] None))
  = [].
Proof.
  exact (proj1 (proj2 (proj2 (proj2 (proj2
    (X2_verification_without_sdk
       (Verify.fresh [("mode", "verifyEmail"); ("oobCode", "c0de"); ("apiKey", "k3y")] None)
       eq_refl)))))).
Defined.

(** X3. With a link that passes the three checks and an SDK whose
    [initializeApp] and [auth] return, the verification page initialises
    the provider with the API key of the link and the two fixed project
    constants, applies the action code of the link once, and waits; the
    panels are left as they were. *)
Theorem X3_verification_applies_the_code_once :
  forall (p : Verify.Page) (sdk : Sdk),
    let query := Verify.search p in
    let config := mkConfig (get "apiKey" query) "ai-meals-9daf1.firebaseapp.com"
                           "ai-meals-9daf1" in
    Verify.firebase p = Some sdk ->
    truthy (get "oobCode" query) = true ->
    truthy (get "apiKey" query) = true ->
    get "mode" query = Some "verifyEmail" ->
    initializeApp_throws sdk config = None ->
    auth_throws sdk true = None ->
    let p' := Verify.step Verify.DOMContentLoaded p in
    Verify.log p'
    = Verify.log p ++ [Verify.LocationSearchRead; Verify.InitializeApp config;
                       Verify.AuthCall; Verify.ApplyActionCode (get "oobCode" query)] /\
    Verify.awaiting_applyActionCode p' = true /\
    Verify.doc p' = Verify.doc p.
Proof.
  intros [d sr fb ai aw ts lg] sdk query config; subst query config.
  cbn [Verify.firebase Verify.search]. intros Hsdk Hcode Hkey Hmode Hinit Hauth. subst fb.
  cbv zeta. verify_script. rewrite Hcode, Hkey, Hmode.
  change (strict_eq (Some "verifyEmail") "verifyEmail") with true.
  cbn [negb]. verify_script. rewrite Hinit. verify_script.
  rewrite Hauth. verify_script. rewrite <- !app_assoc. auto.
Qed.

Lemma X3_witness :
  let p := Verify.step Verify.DOMContentLoaded
    (Verify.fresh [("mode", "verifyEmail"); ("oobCode", "c0de"); ("apiKey", "k3y")]
                  (Some Verify.working_sdk)) in
  Verify.awaiting_applyActionCode p = true /\ Verify.doc p = Verify.initial_document.
Proof.
  exact (proj2 (X3_verification_applies_the_code_once
    (Verify.fresh [("mode", "verifyEmail"); ("oobCode", "c0de"); ("apiKey", "k3y")]
                  (Some Verify.working_sdk))
    Verify.working_sdk eq_refl eq_refl eq_refl eq_refl eq_refl eq_refl)).
Defined.

(** X4. When the provider rejects the action code, the verification page
    ends in the error state: the error panel is the only active one, it
    shows the message mapped from the rejection's code, and the code itself
    is shown for diagnostics whenever the rejection carries a non-empty
    one; otherwise the code field is left as it was. The rejection is
    written to the console, and a settlement delivered afterwards changes
    nothing. *)
Theorem X4_verification_rejected_is_terminal :
  forall (p : Verify.Page) (error : JsError),
    Verify.awaiting_applyActionCode p = true ->
    let p' := Verify.step (Verify.ApplyActionCodeSettled (Rejects error)) p in
    Verify.textContent (Verify.error_message (Verify.doc p'))
    = Verify.verification_message (code error) /\
    Verify.active (Verify.error (Verify.doc p')) = true /\
    Verify.active_panels (Verify.doc p') = 1 /\
    (truthy (code error) = true ->
     Verify.textContent (Verify.error_code (Verify.doc p'))
     = "Error Code: " +:+ template (code error) /\
     Verify.style_display (Verify.error_details (Verify.doc p')) = "block") /\
    (truthy (code error) = false ->
     Verify.error_code (Verify.doc p') = Verify.error_code (Verify.doc p) /\
     Verify.error_details (Verify.doc p') = Verify.error_details (Verify.doc p)) /\
    Verify.log p' = Verify.log p ++ [Verify.ConsoleError "Verification error:" error] /\
    forall outcome, Verify.step (Verify.ApplyActionCodeSettled outcome) p' = p'.
Proof.
  intros p error H p'.
  destruct (applyActionCode_rejected p error H) as (Hd & Hl & Ha & _).
  fold p' in Hd, Hl, Ha. rewrite Hd. unfold Verify.handleVerificationError.
  destruct (showError_panels (Verify.doc p)
              (Verify.verification_message (code error)) (code error)) as (_ & _ & He).
  split; [apply showError_message|]. split; [exact He|].
  split; [apply active_panels_showError|].
  split; [apply showError_truthy_code|]. split; [apply showError_falsy_code|].
  split; [exact Hl|].
  intros outcome. unfold Verify.step. rewrite Ha. reflexivity.
Qed.

Lemma X4_witness :
  let p := Verify.steps
    [Verify.DOMContentLoaded;
     Verify.ApplyActionCodeSettled (Rejects (mkError (Some "auth/expired-action-code") None))]
    (Verify.fresh [("mode", "verifyEmail"); ("oobCode", "c0de"); ("apiKey", "k3y")]
                  (Some Verify.working_sdk)) in
  Verify.textContent (Verify.error_code (Verify.doc p)) = "Error Code: auth/expired-action-code" /\
  Verify.style_display (Verify.error_details (Verify.doc p)) = "block".
Proof.
  exact (proj1 (proj2 (proj2 (proj2 (X4_verification_rejected_is_terminal
    (Verify.step Verify.DOMContentLoaded
       (Verify.fresh [("mode", "verifyEmail"); ("oobCode", "c0de"); ("apiKey", "k3y")]
                     (Some Verify.working_sdk)))
    (mkError (Some "auth/expired-action-code") None) eq_refl)))) eq_refl).
Defined.

(** X5. What [initializeApp] or [auth] throws on the verification page is
    caught like a rejection: it is written to the console and shown through
    the error mapping, the action code is never applied and nothing is left
    pending. *)
Theorem X5_verification_catches_what_the_sdk_throws :
  forall (p : Verify.Page) (sdk : Sdk) (error : JsError),
    let query := Verify.search p in
    let config := mkConfig (get "apiKey" query) "ai-meals-9daf1.firebaseapp.com"
                           "ai-meals-9daf1" in
    Verify.firebase p = Some sdk ->
    truthy (get "oobCode" query) = true ->
    truthy (get "apiKey" query) = true ->
    get "mode" query = Some "verifyEmail" ->
    let p' := Verify.step Verify.DOMContentLoaded p in
    (initializeApp_throws sdk config = Some error ->
     Verify.doc p' = Verify.handleVerificationError error (Verify.doc p) /\
     Verify.awaiting_applyActionCode p' = Verify.awaiting_applyActionCode p /\
     Verify.log p'
     = Verify.log p ++ [Verify.LocationSearchRead; Verify.InitializeApp config;
                        Verify.ConsoleError "Verification error:" error]) /\
    (initializeApp_throws sdk config = None ->
     auth_throws sdk true = Some error ->
     Verify.doc p' = Verify.handleVerificationError error (Verify.doc p) /\
     Verify.awaiting_applyActionCode p' = Verify.awaiting_applyActionCode p /\
     Verify.log p'
     = Verify.log p ++ [Verify.LocationSearchRead; Verify.InitializeApp config;
                        Verify.AuthCall; Verify.ConsoleError "Verification error:" error]).
Proof.
  intros [d sr fb ai aw ts lg] sdk error query config; subst query config.
  cbn [Verify.firebase Verify.search]. intros Hsdk Hcode Hkey Hmode. subst fb.
  cbv zeta. split.
  - intros Hinit. verify_script. rewrite Hcode, Hkey, Hmode.
    change (strict_eq (Some "verifyEmail") "verifyEmail") with true.
    cbn [negb]. verify_script. rewrite Hinit. verify_script.
    rewrite <- !app_assoc. auto.
  - intros Hinit Hauth. verify_script. rewrite Hcode, Hkey, Hmode.
    change (strict_eq (Some "verifyEmail") "verifyEmail") with true.
    cbn [negb]. verify_script. rewrite Hinit. verify_script.
    rewrite Hauth. verify_script. rewrite <- !app_assoc. auto.
Qed.

Lemma X5_witness :
  let broken := mkSdk (fun _ => Some (mkError (Some "app/duplicate-app") None))
                      (fun _ => None) in
  let p := Verify.step Verify.DOMContentLoaded
    (Verify.fresh [("mode", "verifyEmail"); ("oobCode", "c0de"); ("apiKey", "k3y")]
                  (Some broken)) in
  Verify.awaiting_applyActionCode p = false.
Proof.
  exact (proj1 (proj2 (proj1 (X5_verification_catches_what_the_sdk_throws
    (Verify.fresh [("mode", "verifyEmail"); ("oobCode", "c0de"); ("apiKey", "k3y")]
       (Some (mkSdk (fun _ => Some (mkError (Some "app/duplicate-app") None))
                    (fun _ => None))))
    (mkSdk (fun _ => Some (mkError (Some "app/duplicate-app") None)) (fun _ => None))
    (mkError (Some "app/duplicate-app") None) eq_refl eq_refl eq_refl eq_refl) eq_refl))).
Defined.

(** ** The verification page: what every run keeps *)

Section VerifyInvariants.

Import Verify.

Lemma step_keeps_one_panel ev p :
  active_panels (doc p) = 1 -> active_panels (doc (step ev p)) = 1.
Proof.
  destruct p as [d sr fb ai aw ts lg]; cbn [doc]. intros H.
  destruct ev as [|[|e]| |]; verify_script; split_paths verify_script;
    unfold handleVerificationError;
    rewrite ?active_panels_showError, ?active_panels_showSuccess; auto.
Qed.

Lemma step_throws_nothing ev p :
  count is_uncaught (log (step ev p)) = count is_uncaught (log p).
Proof.
  destruct p as [d sr fb ai aw ts lg].
  destruct ev as [|[|e]| |]; verify_script; split_paths verify_script;
    rewrite ?count_app; cbn [count List.filter is_uncaught length]; lia.
Qed.

(** Alerts shown and alerts still to come, against timers set. *)
Lemma step_keeps_alerts_balance ev p :
  count is_alert (log p) + length (timers p) = count is_setTimeout (log p) ->
  count is_alert (log (step ev p)) + length (timers (step ev p))
  = count is_setTimeout (log (step ev p)).
Proof.
  destruct p as [d sr fb ai aw ts lg]. cbn [log timers].
  intros H.
  destruct ev as [|[|e]| |]; verify_script; split_paths verify_script;
    rewrite ?count_app, ?length_app;
    cbn [count List.filter is_alert is_setTimeout length] in *; lia.
Qed.

End VerifyInvariants.

(** X6. Whatever events reach the verification page, in whatever order, a
    page that starts with exactly one active panel has exactly one active
    panel afterwards. *)
Theorem X6_verification_always_one_active_panel :
  forall (evs : list Verify.Event) (p : Verify.Page),
    Verify.active_panels (Verify.doc p) = 1 ->
    Verify.active_panels (Verify.doc (Verify.steps evs p)) = 1.
Proof.
  induction evs as [|ev rest IH]; intros p H; [exact H|].
  unfold Verify.steps; cbn [fold_left]. apply IH, step_keeps_one_panel, H.
Qed.

Lemma X6_witness :
  Verify.active_panels (Verify.doc (Verify.steps
    [Verify.DOMContentLoaded; Verify.ReturnToAppCalled;
     Verify.ApplyActionCodeSettled (Rejects (mkError None None)); Verify.TimerFired]
    (Verify.fresh [("mode", "verifyEmail"); ("oobCode", "c0de"); ("apiKey", "k3y")]
                  (Some Verify.working_sdk)))) = 1.
Proof.
  apply X6_verification_always_one_active_panel. vm_compute. reflexivity.
Defined.

(** X7. On a page that has its six elements, and with a provider that
    throws or rejects with error objects, no event makes the verification
    script fail with an error that nothing catches: whatever the link
    holds, and whichever of [initializeApp], [auth] and [applyActionCode]
    fails, the failure ends in the [catch] block and the number of uncaught
    errors does not grow. A rejection with [null] or [undefined] is outside
    this statement. *)
Theorem X7_verification_never_throws :
  forall (evs : list Verify.Event) (p : Verify.Page),
    Verify.count Verify.is_uncaught (Verify.log (Verify.steps evs p))
    = Verify.count Verify.is_uncaught (Verify.log p).
Proof.
  induction evs as [|ev rest IH]; intros p; [reflexivity|].
  unfold Verify.steps; cbn [fold_left]. fold (Verify.steps rest (Verify.step ev p)).
  rewrite IH. apply step_throws_nothing.
Qed.

(** X8. On the verification page every alert comes from a timer that
    [returnToApp] has set: at any moment the alerts shown and the timers
    still pending add up to the timers set, so a timer tick with nothing
    pending alerts nothing and no alert is shown twice. *)
Theorem X8_every_alert_was_scheduled :
  forall (evs : list Verify.Event) (p : Verify.Page),
    Verify.count Verify.is_alert (Verify.log p) + length (Verify.timers p)
    = Verify.count Verify.is_setTimeout (Verify.log p) ->
    let p' := Verify.steps evs p in
    Verify.count Verify.is_alert (Verify.log p') + length (Verify.timers p')
    = Verify.count Verify.is_setTimeout (Verify.log p').
Proof.
  induction evs as [|ev rest IH]; intros p H; [exact H|].
  cbv zeta. unfold Verify.steps; cbn [fold_left].
  apply IH, (step_keeps_alerts_balance ev p), H.
Qed.

Lemma X8_witness :
  let p := Verify.steps
    [Verify.DOMContentLoaded; Verify.TimerFired; Verify.ReturnToAppCalled;
     Verify.ReturnToAppCalled; Verify.TimerFired]
    (Verify.fresh [("mode", "verifyEmail"); ("oobCode", "c0de"); ("apiKey", "k3y")]
                  (Some Verify.working_sdk)) in
  Verify.count Verify.is_alert (Verify.log p) + length (Verify.timers p) = 2.
Proof.
  pose proof (X8_every_alert_was_scheduled
    [Verify.DOMContentLoaded; Verify.TimerFired; Verify.ReturnToAppCalled;
     Verify.ReturnToAppCalled; Verify.TimerFired]
    (Verify.fresh [("mode", "verifyEmail"); ("oobCode", "c0de"); ("apiKey", "k3y")]
                  (Some Verify.working_sdk)) eq_refl) as H.
  cbv zeta in H |- *. rewrite H. vm_compute. reflexivity.
Defined.

(** ** The reset page: local validation *)

(** X9. [validatePasswords] accepts a pair of fields exactly when the
    confirmation equals the new password, the new password has at least
    eight characters, and it is not made of white space only. *)
Theorem X9_validatePasswords_accepts_exactly :
  forall newPassword confirmPassword : string,
    Reset.isValid (Reset.validatePasswords newPassword confirmPassword) = true
    <-> confirmPassword = newPassword /\
        8 <= String.length newPassword /\
        trim newPassword <> "".
Proof.
  intros newPassword confirmPassword. unfold Reset.validatePasswords.
  cbn [Reset.isValid].
  destruct (String.eqb_spec newPassword "") as [Hn|Hn];
    destruct (String.eqb_spec (trim newPassword) "") as [Htn|Htn];
    destruct (String.eqb_spec confirmPassword "") as [Hc|Hc];
    destruct (String.eqb_spec (trim confirmPassword) "") as [Htc|Htc];
    destruct (Nat.ltb_spec (String.length newPassword) 8) as [Hl|Hl];
    destruct (String.eqb_spec newPassword confirmPassword) as [He|He];
    cbn; (split; [intros H; try discriminate H | intros (H1 & H2 & H3)]);
    try (repeat split; congruence || lia);
    try (subst; cbn in *; congruence || lia).
Qed.

(** X10. Two equal passwords that are too short, and not blank, produce the
    length message alone; two different passwords, neither blank and the new
    one long enough, produce the mismatch message alone. In both cases the
    banner text is that single message. *)
Theorem X10_single_rule_single_message :
  forall newPassword confirmPassword : string,
    (trim newPassword <> "" ->
     String.length newPassword < 8 ->
     String.concat " " (Reset.errors (Reset.validatePasswords newPassword newPassword))
     = "Password must be at least 8 characters long.") /\
    (trim newPassword <> "" ->
     trim confirmPassword <> "" ->
     8 <= String.length newPassword ->
     newPassword <> confirmPassword ->
     String.concat " " (Reset.errors (Reset.validatePasswords newPassword confirmPassword))
     = "Passwords do not match. Please try again.").
Proof.
  assert (Hblank : forall s, trim s <> "" -> s <> "").
  { intros s H ->. apply H. reflexivity. }
  intros newPassword confirmPassword. split.
  - intros Htrim Hshort. unfold Reset.validatePasswords.
    apply Nat.ltb_lt in Hshort.
    pose proof (Hblank _ Htrim) as Hne.
    apply String.eqb_neq in Htrim, Hne.
    rewrite Hne, Htrim, Hshort, String.eqb_refl. reflexivity.
  - intros Htrim Htrimc Hlong Hdiffer. unfold Reset.validatePasswords.
    apply Nat.ltb_ge in Hlong.
    pose proof (Hblank _ Htrim) as Hne. pose proof (Hblank _ Htrimc) as Hnc.
    apply String.eqb_neq in Htrim, Htrimc, Hne, Hnc, Hdiffer.
    rewrite Hne, Htrim, Hnc, Htrimc, Hlong, Hdiffer. reflexivity.
Qed.

Lemma X10_witness :
  String.concat " " (Reset.errors (Reset.validatePasswords "abc" "abc"))
  = "Password must be at least 8 characters long." /\
  String.concat " " (Reset.errors (Reset.validatePasswords "goodpass1" "goodpass2"))
  = "Passwords do not match. Please try again.".
Proof.
  split.
  - exact (proj1 (X10_single_rule_single_message "abc" "abc")
             ltac:(discriminate) ltac:(cbn; lia)).
  - exact (proj2 (X10_single_rule_single_message "goodpass1" "goodpass2")
             ltac:(discriminate) ltac:(discriminate) ltac:(cbn; lia) ltac:(discriminate)).
Defined.

Lemma X9_witness :
  Reset.isValid (Reset.validatePasswords "goodpass1" "goodpass1") = true.
Proof.
  apply (proj2 (X9_validatePasswords_accepts_exactly "goodpass1" "goodpass1")).
  split; [reflexivity|]. split; [cbn; lia|discriminate].
Defined.

(** ** The reset page: submissions *)

Section Submissions.

Import Reset.

(** A submission that fails the local validation. *)
Lemma handleFormSubmit_rejects_locally p newPassword confirmPassword :
  field_value "new-password" p = Some newPassword ->
  field_value "confirm-password" p = Some confirmPassword ->
  isValid (validatePasswords newPassword confirmPassword) = false ->
  let p' := run handleFormSubmit p in
  (status p <> None ->
   displayed p'
   = Some (String.concat " " (errors (validatePasswords newPassword confirmPassword)))) /\
  log p' = log p ++ [PreventDefault; LocationSearchRead]
             ++ match status p with Some _ => [ScrollIntoView] | None => [] end /\
  form p' = form p /\ in_flight p' = in_flight p /\
  submit_listener p' = submit_listener p.
Proof.
  destruct p as [st fm sr fb ai sl aw fl lg].
  cbv [field_value form mbind option_bind].
  intros Hnew Hconfirm Hinvalid.
  destruct fm as [controls|]; [|discriminate Hnew].
  destruct (list_find (fun c => id c = "new-password") controls) as [[? c1]|] eqn:F1;
    [|discriminate Hnew].
  destruct (list_find (fun c => id c = "confirm-password") controls) as [[? c2]|] eqn:F2;
    [|discriminate Hconfirm].
  cbn in Hnew, Hconfirm. injection Hnew as Hnew. injection Hconfirm as Hconfirm.
  cbv zeta. destruct st as [b|]; reset_script;
    rewrite F1, F2; reset_script; rewrite Hnew, Hconfirm, Hinvalid; reset_script;
    (split; [intros Hst; try contradiction;
             unfold displayed; reset_script; rewrite contains_remove; reflexivity|]);
    rewrite <- ?app_assoc; auto 10.
Qed.

(** The form after a submission that passes the local validation. *)
Lemma handleFormSubmit_disables_button p controls newPassword confirmPassword i button sdk :
  form p = Some controls ->
  field_value "new-password" p = Some newPassword ->
  field_value "confirm-password" p = Some confirmPassword ->
  isValid (validatePasswords newPassword confirmPassword) = true ->
  list_find (fun c => submit_button c = true) controls = Some (i, button) ->
  firebase p = Some sdk ->
  let p' := run handleFormSubmit p in
  form p' = Some (alter (set_label "Resetting...") i (alter (set_disabled true) i controls)) /\
  displayed p' = None /\
  submit_listener p' = submit_listener p /\
  (auth_throws sdk (app_initialized p) = None ->
   in_flight p' = in_flight p ++ [(i, label button)] /\
   count is_uncaught (log p') = count is_uncaught (log p)) /\
  (forall error, auth_throws sdk (app_initialized p) = Some error ->
   in_flight p' = in_flight p /\
   log p' = log p ++ [PreventDefault; LocationSearchRead; AuthCall; Uncaught error]).
Proof.
  destruct p as [st fm sr fb ai sl aw fl lg].
  cbv [field_value form firebase app_initialized mbind option_bind].
  intros Hform Hnew Hconfirm Hvalid Hbutton Hsdk. subst fm fb.
  destruct (list_find (fun c => id c = "new-password") controls) as [[? c1]|] eqn:F1;
    [|discriminate Hnew].
  destruct (list_find (fun c => id c = "confirm-password") controls) as [[? c2]|] eqn:F2;
    [|discriminate Hconfirm].
  cbn in Hnew, Hconfirm. injection Hnew as Hnew. injection Hconfirm as Hconfirm.
  assert (Hcount : forall f l1 l2, count f (l1 ++ l2) = count f l1 + count f l2).
  { intros. unfold count. rewrite List.filter_app, length_app. reflexivity. }
  cbv zeta. destruct st as [b|]; reset_script;
    rewrite F1, F2; reset_script; rewrite Hnew, Hconfirm, Hvalid; reset_script;
    rewrite Hbutton; reset_script;
    destruct (auth_throws sdk ai) as [thrown|] eqn:Hauth; reset_script.
  all: split; [reflexivity|].
  all: split; [unfold displayed; reset_script; rewrite ?contains_add; reflexivity|].
  all: split; [reflexivity|].
  all: split.
  all: lazymatch goal with
       | |- Some _ = None -> _ => intros H; discriminate H
       | |- None = None -> _ =>
           intros _; split; [reflexivity|];
           rewrite !Hcount; cbn [count List.filter is_uncaught length]; lia
       | |- forall error, None = Some error -> _ => intros ? H; discriminate H
       | |- forall error, Some _ = Some error -> _ =>
           intros ? H; injection H as <-; rewrite <- !app_assoc; auto
       end.
Qed.

Lemma alter_at (f : Control -> Control) (i : nat) (controls : list Control) c :
  controls !! i = Some c -> f c = c -> alter f i controls = controls.
Proof.
  revert i. induction controls as [|x rest IH]; intros [|i]; cbn; intros H Hf;
    try discriminate H.
  - injection H as ->. rewrite Hf. reflexivity.
  - rewrite (IH i H Hf). reflexivity.
Qed.

Lemma alter_twice (f g : Control -> Control) (i : nat) (controls : list Control) :
  alter f i (alter g i controls) = alter (fun c => f (g c)) i controls.
Proof.
  revert i. induction controls as [|x rest IH]; intros [|i]; cbn; try reflexivity.
  rewrite IH. reflexivity.
Qed.


End Submissions.

(** X11. A submission that fails the local validation shows the violated
    rules in the banner, joined by single spaces, and stops there: the
    provider is not called, nothing is left in flight, and the form is as
    the user filled it, so it can be submitted again at once. *)
Theorem X11_failed_validation_calls_nothing :
  forall (p : Reset.Page) (newPassword confirmPassword : string),
    Reset.submit_listener p = true ->
    Reset.can_submit p = true ->
    Reset.field_value "new-password" p = Some newPassword ->
    Reset.field_value "confirm-password" p = Some confirmPassword ->
    Reset.isValid (Reset.validatePasswords newPassword confirmPassword) = false ->
    let p' := Reset.step Reset.Submit p in
    (Reset.status p <> None ->
     Reset.displayed p'
     = Some (String.concat " "
               (Reset.errors (Reset.validatePasswords newPassword confirmPassword)))) /\
    List.filter Reset.provider_call (Reset.log p')
    = List.filter Reset.provider_call (Reset.log p) /\
    Reset.in_flight p' = Reset.in_flight p /\
    Reset.form p' = Reset.form p /\
    Reset.can_submit p' = true /\
    Reset.submit_listener p' = true.
Proof.
  intros p newPassword confirmPassword Hlistener Hcan Hnew Hconfirm Hinvalid p'.
  subst p'. rewrite (submit_dispatched p Hlistener Hcan).
  destruct (handleFormSubmit_rejects_locally p newPassword confirmPassword
              Hnew Hconfirm Hinvalid) as (Hd & Hl & Hf & Hi & Hs).
  split; [exact Hd|]. split.
  - rewrite Hl, !List.filter_app. destruct (Reset.status p); cbn; rewrite ?app_nil_r;
      reflexivity.
  - split; [exact Hi|]. split; [exact Hf|]. split; [|congruence].
    unfold Reset.can_submit in *. rewrite Hf. exact Hcan.
Qed.

Lemma X11_witness :
  let p := Reset.steps [Reset.DOMContentLoaded; Reset.Typed "new-password" "goodpass1";
                        Reset.Typed "confirm-password" "goodpass2"]
             (Reset.fresh [("mode", "resetPassword"); ("oobCode", "c0de"); ("apiKey", "k3y")]
                          (Some Reset.working_sdk)) in
  Reset.displayed (Reset.step Reset.Submit p)
  = Some "Passwords do not match. Please try again." /\
  Reset.in_flight (Reset.step Reset.Submit p) = [].
Proof.
  cbv zeta.
  pose proof (X11_failed_validation_calls_nothing
    (Reset.steps [Reset.DOMContentLoaded; Reset.Typed "new-password" "goodpass1";
                  Reset.Typed "confirm-password" "goodpass2"]
       (Reset.fresh [("mode", "resetPassword"); ("oobCode", "c0de"); ("apiKey", "k3y")]
                    (Some Reset.working_sdk)))
    "goodpass1" "goodpass2" eq_refl eq_refl eq_refl eq_refl eq_refl) as H.
  cbv zeta in H. destruct H as (Hd & _ & Hi & _).
  split; [apply Hd; discriminate|exact Hi].
Defined.

Section SubmissionGuard.

Import Reset.

Lemma submitted_form_lookup (controls : list Control) (i : nat) button :
  controls !! i = Some button ->
  let controls' := alter (set_label "Resetting...") i (alter (set_disabled true) i controls) in
  controls' !! i = Some (set_label "Resetting..." (set_disabled true button)) /\
  (forall j, j <> i -> controls' !! j = controls !! j).
Proof.
  intros H. cbv zeta. split.
  - rewrite !list_lookup_alter_eq, H. reflexivity.
  - intros j Hj. rewrite !list_lookup_alter_ne by congruence. reflexivity.
Qed.


End SubmissionGuard.



(** X13. When [firebase.auth()] throws inside the submit handler, nothing
    catches it: the provider is not asked to confirm the reset, nothing is
    in flight, and the submit button is left disabled with the label
    "Resetting...". *)
Theorem X13_submit_handler_does_not_catch_auth :
  forall (p : Reset.Page) (controls : list Reset.Control)
         (newPassword confirmPassword : string) (i : nat) (button : Reset.Control)
         (sdk : Sdk) (error : JsError),
    Reset.submit_listener p = true ->
    Reset.can_submit p = true ->
    Reset.form p = Some controls ->
    Reset.field_value "new-password" p = Some newPassword ->
    Reset.field_value "confirm-password" p = Some confirmPassword ->
    Reset.isValid (Reset.validatePasswords newPassword confirmPassword) = true ->
    list_find (fun c => Reset.submit_button c = true) controls = Some (i, button) ->
    Reset.firebase p = Some sdk ->
    auth_throws sdk (Reset.app_initialized p) = Some error ->
    let p' := Reset.step Reset.Submit p in
    Reset.log p'
    = Reset.log p ++ [Reset.PreventDefault; Reset.LocationSearchRead; Reset.AuthCall;
                      Reset.Uncaught error] /\
    Reset.in_flight p' = Reset.in_flight p /\
    exists controls' : list Reset.Control,
      Reset.form p' = Some controls' /\
      controls' !! i
      = Some (Reset.set_label "Resetting..." (Reset.set_disabled true button)).
Proof.
  intros p controls newPassword confirmPassword i button sdk error
         Hlistener Hcan Hform Hnew Hconfirm Hvalid Hbutton Hsdk Hauth p'.
  subst p'. rewrite (submit_dispatched p Hlistener Hcan).
  destruct (handleFormSubmit_disables_button p controls newPassword confirmPassword
              i button sdk Hform Hnew Hconfirm Hvalid Hbutton Hsdk)
    as (Hf & _ & _ & _ & Hthrown).
  destruct (Hthrown error Hauth) as (Hi & Hl).
  apply list_find_Some in Hbutton. destruct Hbutton as (Hlookup & _ & _).
  destruct (submitted_form_lookup controls i button Hlookup) as (Hat & _).
  split; [exact Hl|]. split; [exact Hi|].
  eexists. split; [exact Hf|exact Hat].
Qed.

Lemma X13_witness :
  let no_app := mkSdk (fun _ => None)
                      (fun initialized =>
                         if initialized then None
                         else Some (mkError (Some "app/no-app") None)) in
  let p := Reset.steps [Reset.DOMContentLoaded; Reset.Typed "new-password" "goodpass1";
                        Reset.Typed "confirm-password" "goodpass1"]
             (Reset.fresh [("mode", "resetPassword"); ("apiKey", "k3y")] (Some no_app)) in
  Reset.in_flight (Reset.step Reset.Submit p) = [] /\
  Reset.all_disabled (Reset.step Reset.Submit p) = false /\
  Reset.can_submit (Reset.step Reset.Submit p) = false.
Proof.
  cbv zeta.
  pose proof (X13_submit_handler_does_not_catch_auth
    (Reset.steps [Reset.DOMContentLoaded; Reset.Typed "new-password" "goodpass1";
                  Reset.Typed "confirm-password" "goodpass1"]
       (Reset.fresh [("mode", "resetPassword"); ("apiKey", "k3y")]
          (Some (mkSdk (fun _ => None)
                       (fun initialized : bool =>
                          if initialized then None
                          else Some (mkError (Some "app/no-app") None))))))
    [ Reset.mkControl Reset.Input "new-password" "password" "goodpass1" "" false "";
      Reset.mkControl Reset.Input "confirm-password" "password" "goodpass1" "" false "";
      Reset.mkControl Reset.Button "submit-button" "submit" "" "" false "Reset Password" ]
    "goodpass1" "goodpass1" 2
    (Reset.mkControl Reset.Button "submit-button" "submit" "" "" false "Reset Password")
    _ (mkError (Some "app/no-app") None)
    eq_refl eq_refl eq_refl eq_refl eq_refl eq_refl eq_refl eq_refl eq_refl) as H.
  cbv zeta in H. destruct H as (_ & Hi & _).
  split; [exact Hi|]. split; vm_compute; reflexivity.
Defined.

(** ** The reset page: the settlement of a submission *)

Section Settlement.

Import Reset.


Lemma confirm_rejected p n i original error :
  in_flight p !! n = Some (i, original) ->
  let p' := step (ConfirmPasswordResetSettled n (Rejects error)) p in
  form p' = (fun controls => alter (set_label original) i (alter (set_disabled false) i controls))
              <$> form p /\
  in_flight p' = delete n (in_flight p) /\
  (status p <> None -> displayed p' = Some (getFirebaseErrorMessage error)) /\
  List.filter provider_call (log p') = List.filter provider_call (log p) /\
  submit_listener p' = submit_listener p.
Proof.
  destruct p as [st fm sr fb ai sl aw fl lg]; cbn [in_flight form].
  intros Hn. cbv zeta. unfold step; cbn [in_flight]. rewrite Hn.
  destruct st as [b|], fm as [controls|]; reset_script;
    (split; [reflexivity|]); (split; [reflexivity|]);
    (split; [intros Hst; try contradiction;
             unfold displayed; reset_script; rewrite contains_remove; reflexivity|]);
    rewrite ?List.filter_app; cbn [List.filter provider_call]; rewrite ?app_nil_r; auto.
Qed.

Lemma handleFormSubmit_keeps_banner p :
  status p <> None -> status (run handleFormSubmit p) <> None.
Proof.
  destruct p as [st fm sr fb ai sl aw fl lg]; cbn [status]. intros H.
  destruct st as [b|]; [|contradiction].
  reset_script. split_paths reset_script; discriminate.
Qed.



Lemma restore_button (controls : list Control) (i : nat) button :
  controls !! i = Some button ->
  disabled button = false ->
  alter (set_label (label button)) i
    (alter (set_disabled false) i
       (alter (set_label "Resetting...") i (alter (set_disabled true) i controls)))
  = controls.
Proof.
  intros Hi Hd. rewrite !alter_twice. apply alter_at with (c := button); [exact Hi|].
  destruct button; cbn in *. subst. reflexivity.
Qed.

End Settlement.



(** X15. A submission that the provider rejects leaves the form exactly as
    it was when the user submitted it: the submit button is enabled again
    under its former label and the fields keep what was typed, the banner
    shows the message mapped from the rejection, nothing is in flight, and
    the form can be submitted again. *)
Theorem X15_rejected_submission_restores_the_form :
  forall (p : Reset.Page) (controls : list Reset.Control)
         (newPassword confirmPassword : string) (i : nat) (button : Reset.Control)
         (sdk : Sdk) (error : JsError),
    Reset.submit_listener p = true ->
    Reset.can_submit p = true ->
    Reset.form p = Some controls ->
    Reset.field_value "new-password" p = Some newPassword ->
    Reset.field_value "confirm-password" p = Some confirmPassword ->
    Reset.isValid (Reset.validatePasswords newPassword confirmPassword) = true ->
    list_find (fun c => Reset.submit_button c = true) controls = Some (i, button) ->
    Reset.disabled button = false ->
    Reset.firebase p = Some sdk ->
    auth_throws sdk (Reset.app_initialized p) = None ->
    let submitted := Reset.step Reset.Submit p in
    let p' := Reset.step
                (Reset.ConfirmPasswordResetSettled (length (Reset.in_flight p)) (Rejects error))
                submitted in
    Reset.form p' = Reset.form p /\
    Reset.in_flight p' = Reset.in_flight p /\
    Reset.can_submit p' = true /\
    Reset.submit_listener p' = true /\
    (Reset.status p <> None ->
     Reset.displayed p' = Some (Reset.getFirebaseErrorMessage error)).
Proof.
  intros p controls newPassword confirmPassword i button sdk error
         Hlistener Hcan Hform Hnew Hconfirm Hvalid Hbutton Henabled Hsdk Hauth submitted p'.
  assert (Hsub : submitted = Reset.run Reset.handleFormSubmit p)
    by apply (submit_dispatched p Hlistener Hcan).
  destruct (handleFormSubmit_disables_button p controls newPassword confirmPassword
              i button sdk Hform Hnew Hconfirm Hvalid Hbutton Hsdk)
    as (Hf & _ & Hl & Hok & _).
  destruct (Hok Hauth) as (Hi & _).
  rewrite <- Hsub in Hf, Hl, Hi.
  assert (Hn : Reset.in_flight submitted !! length (Reset.in_flight p)
               = Some (i, Reset.label button)).
  { rewrite Hi. apply list_lookup_middle. reflexivity. }
  destruct (confirm_rejected submitted _ i (Reset.label button) error Hn)
    as (Hf' & Hi' & Hd' & _ & Hl').
  fold p' in Hf', Hi', Hd', Hl'.
  apply list_find_Some in Hbutton. destruct Hbutton as (Hlookup & _ & _).
  assert (Hform' : Reset.form p' = Reset.form p).
  { rewrite Hf', Hf, Hform. cbn.
    rewrite (restore_button controls i button Hlookup Henabled). reflexivity. }
  split; [exact Hform'|]. split.
  - rewrite Hi', Hi, (delete_middle (Reset.in_flight p) []). apply app_nil_r.
  - split; [unfold Reset.can_submit in *; rewrite Hform'; exact Hcan|].
    split; [congruence|].
    intros Hst. apply Hd'. rewrite Hsub. apply handleFormSubmit_keeps_banner, Hst.
Qed.

Lemma X15_witness :
  let p := Reset.steps [Reset.DOMContentLoaded; Reset.Typed "new-password" "goodpass1";
                        Reset.Typed "confirm-password" "goodpass1"]
             (Reset.fresh [("mode", "resetPassword"); ("oobCode", "c0de"); ("apiKey", "k3y")]
                          (Some Reset.working_sdk)) in
  Reset.form
    (Reset.step
       (Reset.ConfirmPasswordResetSettled (length (Reset.in_flight p))
          (Rejects (mkError (Some "auth/weak-password") None)))
       (Reset.step Reset.Submit p))
  = Reset.form p.
Proof.
  cbv zeta.
  exact (proj1 (X15_rejected_submission_restores_the_form
    (Reset.steps [Reset.DOMContentLoaded; Reset.Typed "new-password" "goodpass1";
                  Reset.Typed "confirm-password" "goodpass1"]
       (Reset.fresh [("mode", "resetPassword"); ("oobCode", "c0de"); ("apiKey", "k3y")]
                    (Some Reset.working_sdk)))
    [ Reset.mkControl Reset.Input "new-password" "password" "goodpass1" "" false "";
      Reset.mkControl Reset.Input "confirm-password" "password" "goodpass1" "" false "";
      Reset.mkControl Reset.Button "submit-button" "submit" "" "" false "Reset Password" ]
    "goodpass1" "goodpass1" 2
    (Reset.mkControl Reset.Button "submit-button" "submit" "" "" false "Reset Password")
    Reset.working_sdk (mkError (Some "auth/weak-password") None)
    ltac:(vm_compute; reflexivity) ltac:(vm_compute; reflexivity)
    ltac:(vm_compute; reflexivity) ltac:(vm_compute; reflexivity)
    ltac:(vm_compute; reflexivity) ltac:(vm_compute; reflexivity)
    ltac:(vm_compute; reflexivity) eq_refl eq_refl eq_refl)).
Defined.

(** ** The reset page: loading *)

Section ResetLoading.

Import Reset.

Lemma reset_count_app f l1 l2 : count f (l1 ++ l2) = count f l1 + count f l2.
Proof. unfold count. rewrite List.filter_app, length_app. reflexivity. Qed.

Lemma load_without_sdk p :
  firebase p = None ->
  let p' := step DOMContentLoaded p in
  (status p <> None ->
   displayed p' = Some "Failed to load Firebase SDK. Please refresh the page and try again.") /\
  log p' = log p ++ match status p with Some _ => [ScrollIntoView] | None => [] end /\
  form p' = form p /\ submit_listener p' = submit_listener p /\
  awaiting_verifyPasswordResetCode p' = awaiting_verifyPasswordResetCode p /\
  in_flight p' = in_flight p.
Proof.
  destruct p as [st fm sr fb ai sl aw fl lg]; cbn [firebase]; intros H. subst fb.
  cbv zeta. destruct st as [b|]; reset_script;
    (split; [intros Hst; try contradiction;
             unfold displayed; reset_script; rewrite contains_remove; reflexivity|]);
    rewrite ?app_nil_r; auto 10.
Qed.

Lemma load_with_valid_link p sdk :
  let config := mkConfig (get "apiKey" (search p)) "ai-meals-9daf1.firebaseapp.com"
                         "ai-meals-9daf1" in
  firebase p = Some sdk ->
  truthy (get "oobCode" (search p)) = true ->
  truthy (get "apiKey" (search p)) = true ->
  get "mode" (search p) = Some "resetPassword" ->
  let p' := step DOMContentLoaded p in
  (initializeApp_throws sdk config = None -> auth_throws sdk true = None ->
   log p' = log p ++ [LocationSearchRead; InitializeApp config; AuthCall;
                      VerifyPasswordResetCode (get "oobCode" (search p))] /\
   awaiting_verifyPasswordResetCode p' = true /\
   status p' = status p /\ form p' = form p /\ in_flight p' = in_flight p /\
   submit_listener p' = match form p with Some _ => true | None => submit_listener p end) /\
  (forall error, initializeApp_throws sdk config = Some error ->
   log p' = log p ++ [LocationSearchRead; InitializeApp config;
                      ConsoleError "Error verifying password reset code:" error]
              ++ match status p with Some _ => [ScrollIntoView] | None => [] end /\
   awaiting_verifyPasswordResetCode p' = awaiting_verifyPasswordResetCode p /\
   (status p <> None -> displayed p' = Some (getFirebaseErrorMessage error)) /\
   all_disabled p' = true /\ in_flight p' = in_flight p).
Proof.
  destruct p as [st fm sr fb ai sl aw fl lg]. cbv zeta.
  cbn [firebase search]. intros Hsdk Hcode Hkey Hmode. subst fb. split.
  - intros Hinit Hauth. reset_script. rewrite Hcode, Hkey, Hmode.
    change (strict_eq (Some "resetPassword") "resetPassword") with true.
    reset_script. rewrite Hinit. reset_script. rewrite Hauth. reset_script.
    destruct fm; reset_script; rewrite <- !app_assoc; auto 10.
  - intros error Hinit. reset_script. rewrite Hcode, Hkey, Hmode.
    change (strict_eq (Some "resetPassword") "resetPassword") with true.
    reset_script. rewrite Hinit.
    destruct st as [b|], fm as [controls|]; reset_script;
      (split; [rewrite <- ?app_assoc; rewrite ?app_nil_r; reflexivity|]);
      (split; [reflexivity|]);
      (split; [intros Hst; try contradiction;
               unfold displayed; reset_script; rewrite contains_remove; reflexivity|]);
      (split; [|reflexivity]); unfold all_disabled; cbn [form];
      try reflexivity; apply disable_all_locked.
Qed.

Lemma verification_resolved p :
  awaiting_verifyPasswordResetCode p = true ->
  let p' := step (VerifyPasswordResetCodeSettled Resolves) p in
  status p' = status p /\ form p' = form p /\
  log p' = log p ++ [ConsoleLog "Password reset code verified successfully"] /\
  awaiting_verifyPasswordResetCode p' = false /\
  submit_listener p' = submit_listener p /\ in_flight p' = in_flight p.
Proof.
  destruct p as [st fm sr fb ai sl aw fl lg]; cbn [awaiting_verifyPasswordResetCode].
  intros H. subst aw. cbv zeta. reset_script. auto 10.
Qed.

Lemma step_throws_nothing_but_submit ev p :
  ev <> Submit ->
  count is_uncaught (log (step ev p)) = count is_uncaught (log p).
Proof.
  destruct p as [st fm sr fb ai sl aw fl lg]. intros Hev.
  destruct ev as [|[|e]|name text| |n [|e]]; try contradiction; reset_script;
    split_paths reset_script;
    rewrite ?reset_count_app; cbn [count List.filter is_uncaught length]; lia.
Qed.

End ResetLoading.

(** X16. When the provider's SDK has not been loaded, the reset page shows
    the SDK message and stops: it does not read the link, asks nothing of
    the provider, and does not attach the submit listener, so submitting
    the form does nothing. *)
Theorem X16_reset_without_sdk :
  forall p : Reset.Page,
    Reset.firebase p = None ->
    Reset.submit_listener p = false ->
    let p' := Reset.step Reset.DOMContentLoaded p in
    (Reset.status p <> None ->
     Reset.displayed p'
     = Some "Failed to load Firebase SDK. Please refresh the page and try again.") /\
    Reset.location_reads (Reset.log p') = Reset.location_reads (Reset.log p) /\
    List.filter Reset.provider_call (Reset.log p')
    = List.filter Reset.provider_call (Reset.log p) /\
    Reset.form p' = Reset.form p /\
    Reset.submit_listener p' = false /\
    Reset.step Reset.Submit p' = p'.
Proof.
  intros p Hsdk Hlistener p'.
  destruct (load_without_sdk p Hsdk) as (Hd & Hl & Hf & Hs & _ & _).
  fold p' in Hd, Hl, Hf, Hs.
  split; [exact Hd|]. rewrite Hl, reset_location_reads_app, List.filter_app.
  split; [destruct (Reset.status p); cbn; lia|].
  split; [destruct (Reset.status p); cbn; rewrite ?app_nil_r; reflexivity|].
  split; [exact Hf|]. split; [congruence|].
  unfold Reset.step at 1. rewrite Hs, Hlistener. reflexivity.
Qed.

Lemma X16_witness :
  let p' := Reset.step Reset.DOMContentLoaded
    (Reset.fresh [("mode", "resetPassword"); ("oobCode", "c0de"); ("apiKey", "k3y")] None) in
  Reset.displayed p'
  = Some "Failed to load Firebase SDK. Please refresh the page and try again." /\
  Reset.step Reset.Submit p' = p'.
Proof.
  cbv zeta.
  pose proof (X16_reset_without_sdk
    (Reset.fresh [("mode", "resetPassword"); ("oobCode", "c0de"); ("apiKey", "k3y")] None)
    eq_refl eq_refl) as H.
  cbv zeta in H. destruct H as (Hd & _ & _ & _ & _ & Hs).
  split; [apply Hd; discriminate|exact Hs].
Defined.

(** X17. With a link that passes the three checks and an SDK whose
    [initializeApp] and [auth] return, the reset page initialises the
    provider with the API key of the link and the two fixed project
    constants and asks it once to verify the reset code; the banner and the
    form are untouched and the submit listener is attached. When the check
    resolves the page only writes to the console: banner and form stay as
    they were. *)
Theorem X17_reset_verifies_the_code_once :
  forall (p : Reset.Page) (sdk : Sdk) (controls : list Reset.Control),
    let query := Reset.search p in
    let config := mkConfig (get "apiKey" query) "ai-meals-9daf1.firebaseapp.com"
                           "ai-meals-9daf1" in
    Reset.firebase p = Some sdk ->
    Reset.form p = Some controls ->
    truthy (get "oobCode" query) = true ->
    truthy (get "apiKey" query) = true ->
    get "mode" query = Some "resetPassword" ->
    initializeApp_throws sdk config = None ->
    auth_throws sdk true = None ->
    let p' := Reset.step Reset.DOMContentLoaded p in
    let p'' := Reset.step (Reset.VerifyPasswordResetCodeSettled Resolves) p' in
    Reset.log p'
    = Reset.log p ++ [Reset.LocationSearchRead; Reset.InitializeApp config; Reset.AuthCall;
                      Reset.VerifyPasswordResetCode (get "oobCode" query)] /\
    Reset.awaiting_verifyPasswordResetCode p' = true /\
    Reset.submit_listener p' = true /\
    Reset.status p' = Reset.status p /\ Reset.form p' = Some controls /\
    Reset.status p'' = Reset.status p /\ Reset.form p'' = Some controls /\
    Reset.log p''
    = Reset.log p' ++ [Reset.ConsoleLog "Password reset code verified successfully"] /\
    Reset.submit_listener p'' = true.
Proof.
  intros p sdk controls query config Hsdk Hform Hcode Hkey Hmode Hinit Hauth p' p''.
  destruct (load_with_valid_link p sdk Hsdk Hcode Hkey Hmode) as (Hok & _).
  destruct (Hok Hinit Hauth) as (Hl & Ha & Hs & Hf & _ & Hsl).
  fold p' in Hl, Ha, Hs, Hf, Hsl. rewrite Hform in Hf, Hsl.
  destruct (verification_resolved p' Ha) as (Hs2 & Hf2 & Hl2 & _ & Hsl2 & _).
  fold p'' in Hs2, Hf2, Hl2, Hsl2.
  split; [exact Hl|]. split; [exact Ha|]. split; [exact Hsl|].
  split; [exact Hs|]. split; [exact Hf|].
  split; [rewrite Hs2; exact Hs|]. split; [rewrite Hf2; exact Hf|].
  split; [exact Hl2|]. rewrite Hsl2. exact Hsl.
Qed.

Lemma X17_witness :
  let p' := Reset.step Reset.DOMContentLoaded
    (Reset.fresh [("mode", "resetPassword"); ("oobCode", "c0de"); ("apiKey", "k3y")]
                 (Some Reset.working_sdk)) in
  Reset.awaiting_verifyPasswordResetCode p' = true /\
  Reset.submit_listener p' = true.
Proof.
  cbv zeta.
  pose proof (X17_reset_verifies_the_code_once
    (Reset.fresh [("mode", "resetPassword"); ("oobCode", "c0de"); ("apiKey", "k3y")]
                 (Some Reset.working_sdk))
    Reset.working_sdk Reset.initial_form
    eq_refl eq_refl eq_refl eq_refl eq_refl eq_refl eq_refl) as H.
  cbv zeta in H. destruct H as (_ & Ha & Hs & _). split; assumption.
Defined.

(** X18. A failure of the verify-only check locks the form for the rest of
    the page load when no submission is in flight: whether the provider
    rejects the code or [initializeApp] throws, the mapped message is shown,
    every input and button is disabled, and after any further events they
    are still disabled and the form still cannot be submitted. When
    [initializeApp] throws, the provider is never asked to verify the
    code. *)
Theorem X18_failed_verification_locks_the_form :
  forall (p : Reset.Page) (error : JsError) (evs : list Reset.Event),
    Reset.in_flight p = [] ->
    (Reset.awaiting_verifyPasswordResetCode p = true ->
     let p' := Reset.step (Reset.VerifyPasswordResetCodeSettled (Rejects error)) p in
     (Reset.status p <> None ->
      Reset.displayed p' = Some (Reset.getFirebaseErrorMessage error)) /\
     Reset.all_disabled (Reset.steps evs p') = true /\
     Reset.can_submit (Reset.steps evs p') = false) /\
    (forall sdk : Sdk,
       Reset.firebase p = Some sdk ->
       truthy (get "oobCode" (Reset.search p)) = true ->
       truthy (get "apiKey" (Reset.search p)) = true ->
       get "mode" (Reset.search p) = Some "resetPassword" ->
       initializeApp_throws sdk
         (mkConfig (get "apiKey" (Reset.search p)) "ai-meals-9daf1.firebaseapp.com"
                   "ai-meals-9daf1") = Some error ->
       let p' := Reset.step Reset.DOMContentLoaded p in
       (Reset.status p <> None ->
        Reset.displayed p' = Some (Reset.getFirebaseErrorMessage error)) /\
       Reset.awaiting_verifyPasswordResetCode p' = Reset.awaiting_verifyPasswordResetCode p /\
       Reset.all_disabled (Reset.steps evs p') = true /\
       Reset.can_submit (Reset.steps evs p') = false).
Proof.
  intros p error evs Hnone.
  assert (Hlocked : forall q, Reset.all_disabled q = true -> Reset.can_submit q = false).
  { intros q. unfold Reset.all_disabled, Reset.can_submit.
    destruct (Reset.form q); [apply locked_cannot_submit|reflexivity]. }
  split.
  - intros Ha p'. destruct (verification_rejected p error Ha) as (Hd & Hall & Hi).
    fold p' in Hd, Hall, Hi. rewrite Hnone in Hi.
    pose proof (stays_disabled_when_nothing_in_flight evs p' Hall Hi) as Hkeep.
    split; [exact Hd|]. split; [exact Hkeep|apply Hlocked, Hkeep].
  - intros sdk Hsdk Hcode Hkey Hmode Hinit p'.
    destruct (load_with_valid_link p sdk Hsdk Hcode Hkey Hmode) as (_ & Hthrown).
    destruct (Hthrown error Hinit) as (_ & Ha & Hd & Hall & Hi).
    fold p' in Ha, Hd, Hall, Hi. rewrite Hnone in Hi.
    pose proof (stays_disabled_when_nothing_in_flight evs p' Hall Hi) as Hkeep.
    split; [exact Hd|]. split; [exact Ha|]. split; [exact Hkeep|apply Hlocked, Hkeep].
Qed.

Lemma X18_witness :
  let p := Reset.step Reset.DOMContentLoaded
    (Reset.fresh [("mode", "resetPassword"); ("oobCode", "c0de"); ("apiKey", "k3y")]
                 (Some Reset.working_sdk)) in
  let p' := Reset.step (Reset.VerifyPasswordResetCodeSettled
                          (Rejects (mkError (Some "auth/expired-action-code") None))) p in
  Reset.in_flight p = [] /\
  Reset.all_disabled
    (Reset.steps [Reset.Typed "new-password" "goodpass1";
                  Reset.Typed "confirm-password" "goodpass1"; Reset.Submit;
                  Reset.DOMContentLoaded] p') = true.
Proof.
  cbv zeta. split; [reflexivity|].
  exact (proj1 (proj2 (proj1 (X18_failed_verification_locks_the_form
    (Reset.step Reset.DOMContentLoaded
       (Reset.fresh [("mode", "resetPassword"); ("oobCode", "c0de"); ("apiKey", "k3y")]
                    (Some Reset.working_sdk)))
    (mkError (Some "auth/expired-action-code") None)
    [Reset.Typed "new-password" "goodpass1";
     Reset.Typed "confirm-password" "goodpass1"; Reset.Submit; Reset.DOMContentLoaded]
    eq_refl) eq_refl))).
Defined.

(** X19. With a provider that throws or rejects with error objects, an
    error escapes uncaught on the reset page only from the submit handler:
    loading the page, the settlement of the verify-only check, the
    settlement of a submission and typing leave no uncaught error. What
    [initializeApp] and [auth] throw at load time ends in the [catch]
    block, and what the [then] callback throws when the form is missing
    reaches the [catch] callback. A rejection with [null] or [undefined]
    is outside this statement. *)
Theorem X19_reset_throws_only_in_the_submit_handler :
  forall (ev : Reset.Event) (p : Reset.Page),
    ev <> Reset.Submit ->
    Reset.count Reset.is_uncaught (Reset.log (Reset.step ev p))
    = Reset.count Reset.is_uncaught (Reset.log p).
Proof. exact step_throws_nothing_but_submit. Qed.

Lemma X19_witness :
  Reset.count Reset.is_uncaught (Reset.log (Reset.step Reset.DOMContentLoaded
    (Reset.fresh [("mode", "resetPassword"); ("oobCode", "c0de"); ("apiKey", "k3y")]
       (Some (mkSdk (fun _ => Some (mkError None None)) (fun _ => None)))))) = 0.
Proof.
  exact (X19_reset_throws_only_in_the_submit_handler Reset.DOMContentLoaded
    (Reset.fresh [("mode", "resetPassword"); ("oobCode", "c0de"); ("apiKey", "k3y")]
       (Some (mkSdk (fun _ => Some (mkError None None)) (fun _ => None))))
    ltac:(discriminate)).
Defined.

(** ** The status banner of the reset page *)

(** X20. Showing a message replaces whatever the banner held: its classes
    become exactly those of the chosen variant, never both variants and
    never hidden, and its text the new message, whatever it showed before.
    Hiding keeps the text and makes the banner hidden, and hiding twice is
    hiding once. On a page without the banner both operations do
    nothing. *)
Theorem X20_banner_shows_one_variant :
  forall (p : Reset.Page) (text : string) (isError : bool),
    (forall banner : Reset.Banner,
       Reset.status p = Some banner ->
       Reset.status (snd (Reset.displayMessage text isError p))
       = Some (Reset.mkBanner
                 (if isError then {[ "alert"; "alert-error" ]}
                  else {[ "alert"; "alert-success" ]}) text) /\
       Reset.status (snd (Reset.hideMessage p))
       = Some (Reset.mkBanner (add "hidden" (Reset.classList banner))
                              (Reset.textContent banner)) /\
       Reset.displayed (snd (Reset.hideMessage p)) = None /\
       snd (Reset.hideMessage (snd (Reset.hideMessage p))) = snd (Reset.hideMessage p) /\
       Reset.displayed (snd (Reset.displayMessage text isError (snd (Reset.hideMessage p))))
       = Some text) /\
    (Reset.status p = None ->
     snd (Reset.displayMessage text isError p) = p /\ snd (Reset.hideMessage p) = p).
Proof.
  intros [st fm sr fb ai sl aw fl lg] text isError. cbn [Reset.status]. split.
  - intros banner ->. reset_script.
    split; [destruct isError; f_equal; f_equal; vm_compute; reflexivity|].
    split; [reflexivity|].
    split; [unfold Reset.displayed; reset_script; rewrite contains_add; reflexivity|].
    split; [rewrite add_add; reflexivity|].
    unfold Reset.displayed. reset_script. rewrite contains_remove. reflexivity.
  - intros ->. reset_script. auto.
Qed.

Lemma X20_witness :
  let p := Reset.fresh [] None in
  Reset.status (snd (Reset.displayMessage "Saved." false
                       (snd (Reset.displayMessage "Failed." true p))))
  = Some (Reset.mkBanner {[ "alert"; "alert-success" ]} "Saved.").
Proof.
  cbv zeta.
  assert (H : Reset.status (snd (Reset.displayMessage "Failed." true (Reset.fresh [] None)))
              = Some (Reset.mkBanner {[ "alert"; "alert-error" ]} "Failed."))
    by (vm_compute; reflexivity).
  exact (proj1 (proj1 (X20_banner_shows_one_variant
    (snd (Reset.displayMessage "Failed." true (Reset.fresh [] None))) "Saved." false) _ H)).
Defined.

(** ** The error mappings *)

(** X21. Neither page ever shows an empty error text for a failure of the
    provider: the verification page's message always starts with
    "Verification failed. " followed by a non-empty sentence, and the reset
    page's message is never the empty string, whatever code and message the
    rejection carries, even none. *)
Theorem X21_provider_errors_always_have_a_text :
  forall error : JsError,
    (exists sentence : string,
       Verify.verification_message (code error) = "Verification failed. " +:+ sentence /\
       sentence <> "") /\
    Reset.getFirebaseErrorMessage error <> "".
Proof.
  intros [errorCode msg]. cbn [code]. split.
  - unfold Verify.verification_message.
    repeat match goal with
           | |- context [if ?c then _ else _] => destruct c
           end; eexists; (split; [reflexivity|discriminate]).
  - unfold Reset.getFirebaseErrorMessage. cbn [code message].
    repeat match goal with
           | |- context [if strict_eq ?c ?l then _ else _] => destruct (strict_eq c l)
           end; try discriminate.
    unfold or_else, truthy, template. destruct msg as [text|]; [|discriminate].
    destruct (String.eqb_spec text ""); cbn; [discriminate|assumption].
Qed.

(** ** A submission after an early return *)

Section EarlyReturn.

Import Reset.

Lemma querySelector_submit_found p i button :
  fst (querySelector_submit p) = inl (Some (i, button)) ->
  exists controls,
    form p = Some controls /\
    list_find (fun c => submit_button c = true) controls = Some (i, button).
Proof.
  destruct p as [st fm sr fb ai sl aw fl lg].
  cbv [querySelector_submit JS.bind JS.gets JS.deref JS.ret JS.throw form fst].
  destruct fm as [controls|]; [|discriminate].
  intros H. injection H as H. eauto.
Qed.

(** One of the three guards fires. *)
Lemma some_guard_fires p :
  truthy (get "oobCode" (search p)) = false \/
  truthy (get "apiKey" (search p)) = false \/
  strict_eq (get "mode" (search p)) "resetPassword" = false ->
  exists text,
    initializePasswordReset p = displayMessage text true (emit LocationSearchRead p).
Proof.
  intros Hviolated.
  destruct (truthy (get "oobCode" (search p))) eqn:Hcode.
  - destruct (truthy (get "apiKey" (search p))) eqn:Hkey.
    + destruct (strict_eq (get "mode" (search p)) "resetPassword") eqn:Hmode.
      * destruct Hviolated as [H|[H|H]]; discriminate H.
      * eexists. apply initializePasswordReset_wrong_mode; assumption.
    + eexists. apply initializePasswordReset_missing_key; assumption.
  - eexists. apply initializePasswordReset_missing_code; assumption.
Qed.

End EarlyReturn.

(** C9 as the specification states it fails with an SDK whose [auth] throws
    while no app has been initialised: on the early-return path
    [initializeApp] is never called, so the submission stops at
    [firebase.auth()] with an uncaught error and [confirmPasswordReset] is
    not invoked. *)
Lemma C9_counterexample :
  let no_app := mkSdk (fun _ => None)
                      (fun initialized =>
                         if initialized then None
                         else Some (mkError (Some "app/no-app") None)) in
  let p := Reset.steps [Reset.DOMContentLoaded;
                        Reset.Typed "new-password" "goodpass1";
                        Reset.Typed "confirm-password" "goodpass1";
                        Reset.Submit]
             (Reset.fresh [("mode", "resetPassword"); ("apiKey", "k3y")] (Some no_app)) in
  Reset.isValid (Reset.validatePasswords "goodpass1" "goodpass1") = true /\
  List.filter Reset.provider_call (Reset.log p) = [Reset.AuthCall] /\
  ~ In (Reset.ConfirmPasswordReset None "goodpass1") (Reset.log p) /\
  Reset.in_flight p = [] /\
  Reset.count Reset.is_uncaught (Reset.log p) = 1.
Proof.
  cbv zeta. split; [vm_compute; reflexivity|]. split; [vm_compute; reflexivity|].
  split.
  - vm_compute. intros H. repeat (destruct H as [H|H]; [discriminate H|]). exact H.
  - split; vm_compute; reflexivity.
Qed.

(** C9, amended. When a required URL parameter is missing or the mode is
    wrong, the reset page returns early with its message: it asks nothing
    of the provider, never initialises an app, leaves every control of the
    form as it was, and still attaches the submit listener. A later
    submission that passes the local validation therefore reaches
    [firebase.auth().confirmPasswordReset(params.oobCode, newPassword)].
    When [firebase.auth()] returns a client, [confirmPasswordReset] is
    invoked with whatever [oobCode] the query string holds, [null] when it
    is absent; when [firebase.auth()] throws, the error is uncaught and
    [confirmPasswordReset] is not invoked. *)
Theorem C9_submission_after_early_return_reaches_the_provider :
  forall (p : Reset.Page) (sdk : Sdk) (controls : list Reset.Control),
    Reset.firebase p = Some sdk ->
    Reset.form p = Some controls ->
    truthy (get "oobCode" (Reset.search p)) = false \/
    truthy (get "apiKey" (Reset.search p)) = false \/
    strict_eq (get "mode" (Reset.search p)) "resetPassword" = false ->
    let p1 := Reset.step Reset.DOMContentLoaded p in
    Reset.form p1 = Some controls /\
    Reset.submit_listener p1 = true /\
    Reset.app_initialized p1 = Reset.app_initialized p /\
    List.filter Reset.provider_call (Reset.log p1)
    = List.filter Reset.provider_call (Reset.log p) /\
    forall (newPassword confirmPassword : string) (i : nat) (button : Reset.Control),
      let p2 := Reset.steps [Reset.Typed "new-password" newPassword;
                             Reset.Typed "confirm-password" confirmPassword] p1 in
      Reset.field_value "new-password" p2 = Some newPassword ->
      Reset.field_value "confirm-password" p2 = Some confirmPassword ->
      Reset.isValid (Reset.validatePasswords newPassword confirmPassword) = true ->
      Reset.can_submit p2 = true ->
      fst (Reset.querySelector_submit p2) = inl (Some (i, button)) ->
      match auth_throws sdk (Reset.app_initialized p) with
      | None =>
          Reset.log (Reset.step Reset.Submit p2)
          = Reset.log p1 ++ [Reset.PreventDefault; Reset.LocationSearchRead; Reset.AuthCall;
                             Reset.ConfirmPasswordReset (get "oobCode" (Reset.search p))
                                                        newPassword] /\
          Reset.in_flight (Reset.step Reset.Submit p2)
          = Reset.in_flight p ++ [(i, Reset.label button)]
      | Some error =>
          Reset.log (Reset.step Reset.Submit p2)
          = Reset.log p1 ++ [Reset.PreventDefault; Reset.LocationSearchRead; Reset.AuthCall;
                             Reset.Uncaught error] /\
          Reset.in_flight (Reset.step Reset.Submit p2) = Reset.in_flight p
      end.
Proof.
  intros p sdk controls Hsdk Hform Hviolated p1.
  destruct (some_guard_fires p Hviolated) as [text Hinit].
  destruct (guard_fired_on_load p sdk text Hsdk Hinit)
    as (_ & Hl & Hf & Hs & Hfb & Ha & Hsl & _ & Hfl).
  fold p1 in Hl, Hf, Hs, Hfb, Ha, Hsl, Hfl. rewrite Hform in Hf, Hsl.
  split; [exact Hf|]. split; [exact Hsl|]. split; [exact Ha|]. split.
  - rewrite Hl, !List.filter_app. destruct (Reset.status p); cbn; rewrite ?app_nil_r;
      reflexivity.
  - intros newPassword confirmPassword i button p2 Hnew Hconfirm Hvalid Hcan Hbutton.
    set (q := Reset.step (Reset.Typed "new-password" newPassword) p1) in *.
    assert (Hp2 : p2 = Reset.step (Reset.Typed "confirm-password" confirmPassword) q)
      by reflexivity.
    destruct (typed_frame "new-password" newPassword p1)
      as (_ & Hs1 & Hfb1 & Ha1 & Hsl1 & _ & Hfl1 & Hl1).
    destruct (typed_frame "confirm-password" confirmPassword q)
      as (_ & Hs2 & Hfb2 & Ha2 & Hsl2 & _ & Hfl2 & Hl2).
    fold q in Hs1, Hfb1, Ha1, Hsl1, Hfl1, Hl1.
    rewrite <- Hp2 in Hs2, Hfb2, Ha2, Hsl2, Hfl2, Hl2.
    assert (Hsdk2 : Reset.firebase p2 = Some sdk) by congruence.
    assert (Hlog2 : Reset.log p2 = Reset.log p1) by congruence.
    assert (Hfl2' : Reset.in_flight p2 = Reset.in_flight p) by congruence.
    assert (Hsearch2 : Reset.search p2 = Reset.search p) by congruence.
    assert (Hai2 : Reset.app_initialized p2 = Reset.app_initialized p) by congruence.
    rewrite submit_dispatched; [|congruence|exact Hcan].
    destruct (auth_throws sdk (Reset.app_initialized p)) as [error|] eqn:Hauth.
    + destruct (querySelector_submit_found p2 i button Hbutton) as (controls2 & Hf2 & Hfind).
      destruct (handleFormSubmit_disables_button p2 controls2 newPassword confirmPassword
                  i button sdk Hf2 Hnew Hconfirm Hvalid Hfind Hsdk2)
        as (_ & _ & _ & _ & Hthrown).
      rewrite Hai2 in Hthrown. destruct (Hthrown error Hauth) as (Hi & Hlog).
      rewrite Hlog, Hi, Hlog2, Hfl2'. auto.
    + rewrite <- Hai2 in Hauth.
      destruct (handleFormSubmit_calls_provider p2 newPassword confirmPassword i button sdk
                  Hnew Hconfirm Hvalid Hbutton Hsdk2 Hauth) as (Hlog & Hi & _).
      rewrite Hlog, Hi, Hlog2, Hfl2', Hsearch2. auto.
Qed.

Lemma C9_witness :
  let no_app := mkSdk (fun _ => None)
                      (fun initialized : bool =>
                         if initialized then None
                         else Some (mkError (Some "app/no-app") None)) in
  let submitted sdk :=
    Reset.step Reset.Submit
      (Reset.steps [Reset.Typed "new-password" "goodpass1";
                    Reset.Typed "confirm-password" "goodpass1"]
         (Reset.step Reset.DOMContentLoaded
            (Reset.fresh [("mode", "resetPassword"); ("apiKey", "k3y")] (Some sdk)))) in
  List.filter Reset.provider_call (Reset.log (submitted Reset.working_sdk))
  = [Reset.AuthCall; Reset.ConfirmPasswordReset None "goodpass1"] /\
  Reset.in_flight (submitted no_app) = [].
Proof.
  cbv zeta.
  pose proof (fun sdk =>
    proj2 (proj2 (proj2 (proj2
      (C9_submission_after_early_return_reaches_the_provider
         (Reset.fresh [("mode", "resetPassword"); ("apiKey", "k3y")] (Some sdk))
         sdk Reset.initial_form eq_refl eq_refl (or_introl eq_refl)))))
      "goodpass1" "goodpass1" 2
      (Reset.mkControl Reset.Button "submit-button" "submit" "" "" false "Reset Password")
      eq_refl eq_refl eq_refl eq_refl eq_refl) as H.
  cbv zeta in H. split.
  - pose proof (H Reset.working_sdk) as [Hlog _]. rewrite Hlog. vm_compute. reflexivity.
  - pose proof (H (mkSdk (fun _ => None)
                         (fun initialized : bool =>
                            if initialized then None
                            else Some (mkError (Some "app/no-app") None)))) as [_ Hfl].
    exact Hfl.
Defined.
